(** * Telemedicine appointment scheduler: slot allocation and booking

    A shallow embedding of the booking core of [app.py]: the slot
    generator, the availability query with its five-minute cache, the
    persistence of a booking and the booking form handler, followed by the
    properties proved about them.

    Conventions of the embedding.
    - A Python [str] is a [string] whose characters are the code points
      U+0000..U+00FF.
    - A [datetime] is the proleptic Gregorian ordinal of its date (as
      [date.toordinal]) together with the microsecond of the day; adding
      [timedelta(days=i)] adds [i] to the ordinal.
    - [datetime.now()], [uuid.uuid4()] and the answers of the MongoDB driver
      are inputs of the function that reads them.
    - A Python call either returns a value or raises: [outcome]. *)

From Stdlib Require Import ZArith Lia List Ascii String.
From stdpp Require Import base option list strings gmap.

Open Scope Z_scope.

(* ===================================================================== *)
(** * Python values, exceptions and outcomes                              *)
(* ===================================================================== *)

Module Py.

(** The exceptions the booking core can meet. [PyMongoError] stands for the
    driver's errors ([ServerSelectionTimeoutError], [OperationFailure], ...),
    all of them subclasses of [Exception]. *)
Inductive exn : Type :=
  | ValueError (msg : string)
  | KeyError (key : string)
  | TypeError (msg : string)
  | PyMongoError (msg : string).

(** Result of running a Python call. *)
Inductive outcome (A : Type) : Type :=
  | Ret (a : A)
  | Raise (e : exn).
Arguments Ret {A} a.
Arguments Raise {A} e.

Definition bind {A B : Type} (m : outcome A) (k : A -> outcome B) : outcome B :=
  match m with
  | Ret a => k a
  | Raise e => Raise e
  end.

(** [try: m  except Exception as e: h e]. *)
Definition try_except {A : Type} (m : outcome A) (h : exn -> outcome A) : outcome A :=
  match m with
  | Ret a => Ret a
  | Raise e => h e
  end.

(** The values that flow through the booking form. *)
Inductive value : Type :=
  | VStr (s : string)
  | VInt (n : Z)
  | VNone.

(** ** [str.isspace], [str.strip], [str.lower] on U+0000..U+00FF *)

(** Code points for which [str.isspace] holds: TAB..CR, FS..US, SPACE,
    NEL (U+0085) and NBSP (U+00A0). *)
Definition isspace (c : ascii) : bool :=
  let n := N_of_ascii c in
  (((9 <=? n) && (n <=? 13)) || ((28 <=? n) && (n <=? 32))
   || (n =? 133) || (n =? 160))%N.

(** Upper-case letters: A..Z and the Latin-1 capitals U+00C0..U+00DE
    except the multiplication sign U+00D7. *)
Definition isupper (c : ascii) : bool :=
  let n := N_of_ascii c in
  (((65 <=? n) && (n <=? 90))
   || ((192 <=? n) && (n <=? 222) && negb (n =? 215)))%N.

Definition lower_char (c : ascii) : ascii :=
  if isupper c then ascii_of_N (N_of_ascii c + 32) else c.

Fixpoint lower (s : string) : string :=
  match s with
  | EmptyString => EmptyString
  | String c s' => String (lower_char c) (lower s')
  end.

Fixpoint lstrip (s : string) : string :=
  match s with
  | EmptyString => EmptyString
  | String c s' => if isspace c then lstrip s' else s
  end.

Fixpoint rstrip (s : string) : string :=
  match s with
  | EmptyString => EmptyString
  | String c s' =>
      match rstrip s' with
      | EmptyString => if isspace c then EmptyString else String c EmptyString
      | r => String c r
      end
  end.

Definition strip (s : string) : string := rstrip (lstrip s).

(** First and last character, when there is one. *)
Definition head (s : string) : option ascii :=
  match s with
  | EmptyString => None
  | String c _ => Some c
  end.

Fixpoint last (s : string) : option ascii :=
  match s with
  | EmptyString => None
  | String c EmptyString => Some c
  | String _ s' => last s'
  end.

(** [sub in s] for strings. *)
Fixpoint is_prefix (p s : string) : bool :=
  match p, s with
  | EmptyString, _ => true
  | String a p', String b s' => if Ascii.eqb a b then is_prefix p' s' else false
  | String _ _, EmptyString => false
  end.

Fixpoint contains (sub s : string) : bool :=
  is_prefix sub s ||
  match s with
  | EmptyString => false
  | String _ s' => contains sub s'
  end.

(** Every character of [s] is white space. *)
Fixpoint all_space (s : string) : bool :=
  match s with
  | EmptyString => true
  | String c s' => isspace c && all_space s'
  end.

(** No character of [s] is upper case. *)
Fixpoint no_upper (s : string) : bool :=
  match s with
  | EmptyString => true
  | String c s' => negb (isupper c) && no_upper s'
  end.

(** Truthiness of a string: [bool(s)]. *)
Definition truthy_str (s : string) : bool :=
  match s with
  | EmptyString => false
  | String _ _ => true
  end.

(** ** Decimal rendering and [int()] *)

Definition digit_char (d : Z) : ascii := ascii_of_N (48 + Z.to_N d).

Fixpoint dec_digits (fuel : nat) (n : Z) (acc : string) : string :=
  match fuel with
  | O => acc
  | S fuel' =>
      let acc' := String (digit_char (n mod 10)) acc in
      if n / 10 =? 0 then acc' else dec_digits fuel' (n / 10) acc'
  end.

(** [str(n)] for an integer. *)
Definition str_of_int (n : Z) : string :=
  if n <? 0
  then String "-"%char (dec_digits (S (Z.to_nat (Z.log2 (- n)))) (- n) EmptyString)
  else dec_digits (S (Z.to_nat (Z.log2 n))) n EmptyString.

Definition is_digit (c : ascii) : bool :=
  let n := N_of_ascii c in ((48 <=? n) && (n <=? 57))%N.

Definition digit_val (c : ascii) : Z := Z.of_N (N_of_ascii c) - 48.

(** Digits of an integer literal after the sign: a digit first, then digits
    with single underscores between them. [prev_digit] tells whether the
    character before was a digit. *)
Fixpoint parse_digits (s : string) (acc : Z) (prev_digit : bool) : option Z :=
  match s with
  | EmptyString => if prev_digit then Some acc else None
  | String c s' =>
      if is_digit c then parse_digits s' (10 * acc + digit_val c) true
      else if Ascii.eqb c "_"%char
           then (if prev_digit then parse_digits s' acc false else None)
           else None
  end.

Definition parse_int (s : string) : option Z :=
  match strip s with
  | String "-"%char r => (fun n => - n) <$> parse_digits r 0 false
  | String "+"%char r => parse_digits r 0 false
  | r => parse_digits r 0 false
  end.

(** [str(v)]. *)
Definition str (v : value) : string :=
  match v with
  | VStr s => s
  | VInt n => str_of_int n
  | VNone => "None"
  end.

(** [int(v)]. *)
Definition int (v : value) : outcome Z :=
  match v with
  | VInt n => Ret n
  | VStr s =>
      match parse_int s with
      | Some n => Ret n
      | None => Raise (ValueError "invalid literal for int() with base 10")
      end
  | VNone => Raise (TypeError "int() argument must be a string, a bytes-like object or a real number, not 'NoneType'")
  end.

(** [d[k]] on a dict. *)
Definition getitem (d : gmap string value) (k : string) : outcome value :=
  match d !! k with
  | Some v => Ret v
  | None => Raise (KeyError k)
  end.

End Py.

(* ===================================================================== *)
(** * Dates                                                               *)
(* ===================================================================== *)

Module Date.

Record datetime : Type := {
  ordinal : Z;       (* date.toordinal(): 1 is 0001-01-01 *)
  microsecond : Z    (* microsecond of the day *)
}.

(** [dt + timedelta(days=i)]. *)
Definition add_days (dt : datetime) (i : Z) : datetime :=
  {| ordinal := ordinal dt + i; microsecond := microsecond dt |}.

Definition MAXORDINAL : Z := 3652059.   (* 9999-12-31 *)

Definition DI400Y : Z := 146097.
Definition DI100Y : Z := 36524.
Definition DI4Y : Z := 1461.

Definition is_leap (year : Z) : bool :=
  (year mod 4 =? 0) && (negb (year mod 100 =? 0) || (year mod 400 =? 0)).

Definition DAYS_IN_MONTH (month : Z) : Z :=
  match month with
  | 1 => 31 | 2 => 28 | 3 => 31 | 4 => 30 | 5 => 31 | 6 => 30
  | 7 => 31 | 8 => 31 | 9 => 30 | 10 => 31 | 11 => 30 | 12 => 31
  | _ => -1
  end.

Definition DAYS_BEFORE_MONTH (month : Z) : Z :=
  match month with
  | 1 => 0 | 2 => 31 | 3 => 59 | 4 => 90 | 5 => 120 | 6 => 151
  | 7 => 181 | 8 => 212 | 9 => 243 | 10 => 273 | 11 => 304 | 12 => 334
  | _ => -1
  end.

Definition b2z (b : bool) : Z := if b then 1 else 0.

(** Month and day of the [n]-th day (from 0) of a year, as the tail of
    CPython's [_ord2ymd]. *)
Definition month_day (leapyear : bool) (n : Z) : Z * Z :=
  let month := Z.shiftr (n + 50) 5 in
  let preceding := DAYS_BEFORE_MONTH month + b2z ((2 <? month) && leapyear) in
  if n <? preceding
  then
    let month' := month - 1 in
    let preceding' :=
      preceding - (DAYS_IN_MONTH month' + b2z ((month' =? 2) && leapyear)) in
    (month', n - preceding' + 1)
  else (month, n - preceding + 1).

(** CPython's [_ord2ymd]: ordinal to (year, month, day). *)
Definition ord2ymd (n : Z) : Z * Z * Z :=
  let n := n - 1 in
  let n400 := n / DI400Y in
  let n := n mod DI400Y in
  let n100 := n / DI100Y in
  let n := n mod DI100Y in
  let n4 := n / DI4Y in
  let n := n mod DI4Y in
  let n1 := n / 365 in
  let n := n mod 365 in
  let year := n400 * 400 + 1 + n100 * 100 + n4 * 4 + n1 in
  if (n1 =? 4) || (n100 =? 4)
  then (year - 1, 12, 31)
  else
    let leapyear := (n1 =? 3) && (negb (n4 =? 24) || (n100 =? 3)) in
    let '(m, d) := month_day leapyear n in
    (year, m, d).

(** Days before January 1st of [year], and CPython's [_ymd2ord]. *)
Definition days_before_year (year : Z) : Z :=
  let y := year - 1 in y * 365 + y / 4 - y / 100 + y / 400.

Definition ymd2ord (ymd : Z * Z * Z) : Z :=
  let '(y, m, d) := ymd in
  days_before_year y + DAYS_BEFORE_MONTH m + b2z ((2 <? m) && is_leap y) + d.

Definition digit (d : Z) : ascii := Py.digit_char (d mod 10).

Definition pad2 (n : Z) : string :=
  String (digit (n / 10)) (String (digit n) EmptyString).

Definition pad4 (n : Z) : string :=
  String (digit (n / 1000)) (String (digit (n / 100))
    (String (digit (n / 10)) (String (digit n) EmptyString))).

(** ["%Y-%m-%d"] of the date with ordinal [n], the year on four digits. *)
Definition ymd_string (n : Z) : string :=
  let '(y, m, d) := ord2ymd n in
  pad4 y +:+ "-" +:+ pad2 m +:+ "-" +:+ pad2 d.

(** [dt.strftime('%Y-%m-%d')]. *)
Definition strftime_ymd (dt : datetime) : string := ymd_string (ordinal dt).

(** Checks used in the proofs about [ord2ymd]: [month_day] lands in a
    month and inverts [DAYS_BEFORE_MONTH]; [cyc] writes a year by its
    position in the 400-, 100-, 4- and 1-year cycles. *)
Definition month_day_ok (leap : bool) (n : Z) : bool :=
  let '(m, d) := month_day leap n in
  (1 <=? m) && (m <=? 12) && (1 <=? d) && (d <=? 31)
  && (DAYS_BEFORE_MONTH m + b2z ((2 <? m) && leap) + d =? n + 1).

Definition cyc (a b c e : Z) : Z := 400 * a + 100 * b + 4 * c + e + 1.

End Date.

(* ===================================================================== *)
(** * The application                                                     *)
(* ===================================================================== *)

Module App.
Import Py Date.

(** ** State *)

(** A message built by an f-string: literal text, or a prefix followed by
    [str(e)] of a caught exception. *)
Inductive text : Type :=
  | Text (s : string)
  | TextExn (prefix : string) (e : exn).

(** What the script writes to the page. *)
Inductive ui_event : Type :=
  | StError (t : text)
  | StWarning (t : text)
  | StSuccess (t : text)
  | StToast (t : text)
  | StBalloons
  | FormHeader
  | DoctorCard (doctor_name : string)
  | SlotsHeader
  | SlotLine (slot : string)
  | SlotsFooter
  | BotMessage (content : string)
  | BookingConfirmation (booking_id name doctor specialization slot email : string).

(** A document of [db.appointments], with the fields
    [save_appointment_to_db] writes. *)
Record appointment : Type := {
  booking_id : string;
  name : string;
  age : Z;
  gender : string;
  phone : string;
  email : string;
  doctor : string;
  doctor_specialization : string;
  appointment_slot : string;
  symptoms : string;
  status : string;
  created_at : datetime;
  updated_at : datetime
}.

Inductive client : Type := MongoClient (uri : option string).
Inductive database : Type := Database (c : client) (db_name : string).

(** [st.session_state]. [db_connection_shown] is [None] while the key is
    absent. *)
Record session_state : Type := {
  appointment_stage : option string;
  appointment_details : gmap string value;
  available_slots : list string;
  active_button : option string;
  db_connection_shown : option bool;
  chat_history : list (string * string);
  processing : bool
}.

(** The module-level globals [mongo_client] and [db], the collection
    [db.appointments] on the server, the entry of [st.cache_data] for
    [get_available_slots], the session and the page. *)
Record world : Type := {
  mongo_client : option client;
  db : option database;
  appointments : list appointment;
  slots_cache : option (list string);
  session : session_state;
  ui : list ui_event
}.

Definition set_appointments (l : list appointment) (w : world) : world :=
  {| mongo_client := mongo_client w; db := db w; appointments := l;
     slots_cache := slots_cache w; session := session w; ui := ui w |}.

Definition set_slots_cache (c : option (list string)) (w : world) : world :=
  {| mongo_client := mongo_client w; db := db w; appointments := appointments w;
     slots_cache := c; session := session w; ui := ui w |}.

Definition set_session (s : session_state) (w : world) : world :=
  {| mongo_client := mongo_client w; db := db w; appointments := appointments w;
     slots_cache := slots_cache w; session := s; ui := ui w |}.

Definition set_ui (u : list ui_event) (w : world) : world :=
  {| mongo_client := mongo_client w; db := db w; appointments := appointments w;
     slots_cache := slots_cache w; session := session w; ui := u |}.

Definition set_globals (c : option client) (d : option database) (w : world) : world :=
  {| mongo_client := c; db := d; appointments := appointments w;
     slots_cache := slots_cache w; session := session w; ui := ui w |}.

Definition set_appointment_stage (v : option string) (s : session_state) : session_state :=
  {| appointment_stage := v; appointment_details := appointment_details s;
     available_slots := available_slots s; active_button := active_button s;
     db_connection_shown := db_connection_shown s;
     chat_history := chat_history s; processing := processing s |}.

Definition set_appointment_details (v : gmap string value) (s : session_state) : session_state :=
  {| appointment_stage := appointment_stage s; appointment_details := v;
     available_slots := available_slots s; active_button := active_button s;
     db_connection_shown := db_connection_shown s;
     chat_history := chat_history s; processing := processing s |}.

Definition set_available_slots (v : list string) (s : session_state) : session_state :=
  {| appointment_stage := appointment_stage s;
     appointment_details := appointment_details s;
     available_slots := v; active_button := active_button s;
     db_connection_shown := db_connection_shown s;
     chat_history := chat_history s; processing := processing s |}.

Definition set_active_button (v : option string) (s : session_state) : session_state :=
  {| appointment_stage := appointment_stage s;
     appointment_details := appointment_details s;
     available_slots := available_slots s; active_button := v;
     db_connection_shown := db_connection_shown s;
     chat_history := chat_history s; processing := processing s |}.

Definition set_db_connection_shown (v : option bool) (s : session_state) : session_state :=
  {| appointment_stage := appointment_stage s;
     appointment_details := appointment_details s;
     available_slots := available_slots s; active_button := active_button s;
     db_connection_shown := v;
     chat_history := chat_history s; processing := processing s |}.

Definition set_chat_history (v : list (string * string)) (s : session_state) : session_state :=
  {| appointment_stage := appointment_stage s;
     appointment_details := appointment_details s;
     available_slots := available_slots s; active_button := active_button s;
     db_connection_shown := db_connection_shown s;
     chat_history := v; processing := processing s |}.

Definition set_processing (v : bool) (s : session_state) : session_state :=
  {| appointment_stage := appointment_stage s;
     appointment_details := appointment_details s;
     available_slots := available_slots s; active_button := active_button s;
     db_connection_shown := db_connection_shown s;
     chat_history := chat_history s; processing := v |}.

(** ** Computations: state passing with exceptions

    A raised exception keeps the state reached so far. *)
Definition M (A : Type) : Type := world -> outcome A * world.

Definition ret {A : Type} (a : A) : M A := fun w => (Ret a, w).

Definition raise {A : Type} (e : exn) : M A := fun w => (Raise e, w).

Definition mbind {A B : Type} (m : M A) (k : A -> M B) : M B :=
  fun w =>
    match m w with
    | (Ret a, w') => k a w'
    | (Raise e, w') => (Raise e, w')
    end.

Definition lift {A : Type} (o : outcome A) : M A := fun w => (o, w).

(** [try: m  except Exception as e: h e]. *)
Definition mtry {A : Type} (m : M A) (h : exn -> M A) : M A :=
  fun w =>
    match m w with
    | (Ret a, w') => (Ret a, w')
    | (Raise e, w') => h e w'
    end.

Definition get : M world := fun w => (Ret w, w).
Definition modify (f : world -> world) : M unit := fun w => (Ret tt, f w).

Definition emit (e : ui_event) : M unit := modify (fun w => set_ui (ui w ++ [e]) w).
Definition st_error (t : text) : M unit := emit (StError t).
Definition st_warning (t : text) : M unit := emit (StWarning t).
Definition st_success (t : text) : M unit := emit (StSuccess t).
Definition st_toast (t : text) : M unit := emit (StToast t).

Definition modify_session (f : session_state -> session_state) : M unit :=
  modify (fun w => set_session (f (session w)) w).

Notation "'let*' x ':=' m 'in' k" := (mbind m (fun x => k))
  (at level 10, x name, m at level 100, k at level 200).
Notation "m ';;' k" := (mbind m (fun _ => k))
  (at level 100, k at level 200, right associativity).

(** ** External collaborators *)

(** Answer of the driver to [db.appointments.find(...)]. *)
Inductive find_reply : Type :=
  | FindReturns
  | FindRaises (e : exn).

(** Answer of the driver to [db.appointments.insert_one(doc)]:
    the document is stored and [result.inserted_id] is truthy; the call
    returns with a falsy [inserted_id] and nothing is stored; or the call
    raises and nothing is stored. *)
Inductive insert_reply : Type :=
  | InsertAcknowledged
  | InsertNoId
  | InsertRaises (e : exn).

(** [db.appointments.find({"status": "confirmed"},
                          {"appointment_slot": 1, "_id": 0})]. *)
Definition find_confirmed (r : find_reply) : M (list appointment) :=
  match r with
  | FindReturns =>
      let* w := get in
      ret (List.filter (fun a => String.eqb (status a) "confirmed") (appointments w))
  | FindRaises e => raise e
  end.

(** [db.appointments.insert_one(doc)]; the value is the truthiness of
    [result.inserted_id]. *)
Definition insert_one (r : insert_reply) (doc : appointment) : M bool :=
  match r with
  | InsertAcknowledged =>
      modify (fun w => set_appointments (appointments w ++ [doc]) w) ;;
      ret true
  | InsertNoId => ret false
  | InsertRaises e => raise e
  end.

(** [uuid.uuid4()] is the 128-bit integer of the UUID; [str(u)] prints it
    as 32 hexadecimal digits grouped 8-4-4-4-12. *)
Definition hex_char (d : Z) : ascii :=
  if d <? 10 then ascii_of_N (48 + Z.to_N d) else ascii_of_N (87 + Z.to_N d).

Fixpoint hex_fixed (k : nat) (n : Z) : string :=
  match k with
  | O => EmptyString
  | S k' => String (hex_char ((n / 16 ^ Z.of_nat k') mod 16)) (hex_fixed k' n)
  end.

Definition str_uuid (u : Z) : string :=
  let hex := hex_fixed 32 u in
  substring 0 8 hex +:+ "-" +:+ substring 8 4 hex +:+ "-" +:+
  substring 12 4 hex +:+ "-" +:+ substring 16 4 hex +:+ "-" +:+
  substring 20 12 hex.

(** ** Slots *)

Definition day_slots (date : string) : list string :=
  [ date +:+ " 09:00 AM";
    date +:+ " 10:00 AM";
    date +:+ " 11:00 AM";
    date +:+ " 02:00 PM";
    date +:+ " 03:00 PM";
    date +:+ " 04:00 PM" ].

(** [(datetime.now() + timedelta(days=i)).strftime('%Y-%m-%d')], where
    [clock i] is what [datetime.now()] returns in iteration [i]. *)
Definition slot_date (clock : nat -> datetime) (i : nat) : string :=
  strftime_ymd (add_days (clock i) (Z.of_nat i)).

Definition generate_static_slots (clock : nat -> datetime) : list string :=
  fold_left (fun slots i => slots ++ day_slots (slot_date clock i)) (seq 0 7) [].

(** [slot in booked_slot_times]. *)
Definition slot_in (slot : string) (booked_slot_times : list string) : bool :=
  existsb (String.eqb slot) booked_slot_times.

Definition globals_missing (w : world) : bool :=
  match mongo_client w, db w with
  | Some _, Some _ => false
  | _, _ => true
  end.

(** The function under [@st.cache_data]: what a cache miss runs. *)
Definition get_available_slots_wrapped (r : find_reply) (clock : nat -> datetime)
  : M (list string) :=
  mtry
    (let* w := get in
     if globals_missing w then ret (generate_static_slots clock)
     else
       let* booked_slots := find_confirmed r in
       let booked_slot_times := map appointment_slot booked_slots in
       let slots :=
         fold_left
           (fun slots i =>
              let possible_slots := day_slots (slot_date clock i) in
              let available_slots :=
                List.filter (fun slot => negb (slot_in slot booked_slot_times))
                            possible_slots in
              slots ++ available_slots)
           (seq 0 7) [] in
       match slots with
       | [] =>
           st_warning (Text "No available slots found for the next 7 days") ;;
           ret []
       | _ => ret slots
       end)
    (fun e =>
       st_error (TextExn "Error fetching available slots: " e) ;;
       ret (generate_static_slots clock)).

(** [@st.cache_data(ttl=300)]: a live entry answers the call; otherwise the
    function runs and its return value is stored. An exception stores
    nothing. *)
Definition get_available_slots (r : find_reply) (clock : nat -> datetime)
  : M (list string) :=
  let* w := get in
  match slots_cache w with
  | Some cached => ret cached
  | None =>
      let* slots := get_available_slots_wrapped r clock in
      modify (set_slots_cache (Some slots)) ;;
      ret slots
  end.

(** [get_available_slots.clear()]. *)
Definition get_available_slots_clear : M unit := modify (set_slots_cache None).

(** The entry outlives its [ttl] of 300 seconds. *)
Definition ttl_expire : M unit := modify (set_slots_cache None).

(** ** Persisting a booking *)

(** What one call of [save_appointment_to_db] reads from outside. *)
Record save_env : Type := {
  uuid4 : Z;
  now : datetime;
  insert_one_reply : insert_reply
}.

Definition save_appointment_to_db (env : save_env)
    (appointment_details : gmap string value) : M (option string) :=
  mtry
    (let* w := get in
     if globals_missing w
     then raise (ValueError "Database connection not established")
     else
       let booking_id := str_uuid (uuid4 env) in
       let current_time := now env in
       let* v_name := lift (getitem appointment_details "name") in
       let* v_age := lift (getitem appointment_details "age") in
       let* n_age := lift (int v_age) in
       let* v_gender := lift (getitem appointment_details "gender") in
       let* v_phone := lift (getitem appointment_details "phone") in
       let* v_email := lift (getitem appointment_details "email") in
       let* v_doctor := lift (getitem appointment_details "doctor") in
       let* v_spec := lift (getitem appointment_details "doctor_specialization") in
       let* v_slot := lift (getitem appointment_details "slot") in
       let* v_symptoms := lift (getitem appointment_details "symptoms") in
       let appointment_data :=
         {| booking_id := booking_id;
            name := strip (str v_name);
            age := n_age;
            gender := strip (str v_gender);
            phone := strip (str v_phone);
            email := lower (strip (str v_email));
            doctor := str v_doctor;
            doctor_specialization := str v_spec;
            appointment_slot := str v_slot;
            symptoms := strip (str v_symptoms);
            status := "confirmed";
            created_at := current_time;
            updated_at := current_time |} in
       let* inserted_id := insert_one (insert_one_reply env) appointment_data in
       if inserted_id
       then get_available_slots_clear ;; ret (Some booking_id)
       else st_error (Text "Failed to save appointment to database") ;; ret None)
    (fun e =>
       st_error (TextExn "Error saving appointment: " e) ;;
       ret None).

(** ** The booking form *)

Record doctor_info : Type := {
  specialization : string;
  experience : string;
  fee : string;
  availability : string;
  education : string
}.

(** [get_doctors_info()], in the order of the dict literal (the display
    glyph of each doctor is left out). *)
Definition get_doctors_info : list (string * doctor_info) :=
  [ ("Dr. John Smith",
     {| specialization := "General Physician"; experience := "15+ years";
        fee := "$100"; availability := "Mon-Fri";
        education := "MD, Internal Medicine" |});
    ("Dr. Sarah Johnson",
     {| specialization := "Cardiologist"; experience := "12+ years";
        fee := "$150"; availability := "Mon-Wed";
        education := "MD, Cardiology" |});
    ("Dr. Michael Chen",
     {| specialization := "Pediatrician"; experience := "10+ years";
        fee := "$120"; availability := "Tue-Sat";
        education := "MD, Pediatrics" |});
    ("Dr. Emily Williams",
     {| specialization := "Dermatologist"; experience := "8+ years";
        fee := "$130"; availability := "Wed-Fri";
        education := "MD, Dermatology" |}) ].

(** [doctors[key]]. *)
Fixpoint doctors_getitem (doctors : list (string * doctor_info)) (key : string)
  : outcome doctor_info :=
  match doctors with
  | [] => Raise (KeyError key)
  | (k, v) :: rest => if String.eqb k key then Ret v else doctors_getitem rest key
  end.

(** What the widgets of the form return in one run of the script. *)
Module Form.
Record t : Type := {
  name : string;                   (* st.text_input("Full Name") *)
  age : Z;                         (* st.number_input("Age", 1, 120) *)
  gender : string;                 (* st.selectbox("Gender", ...) *)
  phone : string;                  (* st.text_input("Phone Number") *)
  email : string;                  (* st.text_input("Email") *)
  doctor_button : nat -> bool;     (* st.button("Select ...", key="doc_i") *)
  preferred_slot : option string;  (* st.selectbox("Preferred Time Slot") *)
  symptoms : string;               (* st.text_area(...) *)
  book : bool                      (* st.button("Book Appointment") *)
}.
End Form.

(** [for i, (doctor_name, details) in enumerate(doctors.items())]. *)
Fixpoint doctor_loop (items : list (string * doctor_info)) (i : nat)
    (button : nat -> bool) (selected_doctor : option string) : M (option string) :=
  match items with
  | [] => ret selected_doctor
  | (doctor_name, _) :: rest =>
      emit (DoctorCard doctor_name) ;;
      doctor_loop rest (S i) button
        (if button i then Some doctor_name else selected_doctor)
  end.

Definition truthy_opt (o : option string) : bool :=
  match o with
  | Some s => truthy_str s
  | None => false
  end.

Definition opt_str (o : option string) : string :=
  match o with
  | Some s => s
  | None => "None"
  end.

(** The condition of the ["Book Appointment"] branch. *)
Definition all_fields_filled (f : Form.t) (selected_doctor : option string) : bool :=
  truthy_str (Form.name f) && negb (Form.age f =? 0)
  && negb (String.eqb (Form.gender f) "Select")
  && truthy_str (Form.phone f) && truthy_str (Form.email f)
  && truthy_opt (Form.preferred_slot f) && truthy_str (Form.symptoms f)
  && truthy_opt selected_doctor.

Definition value_of_opt (o : option string) : value :=
  match o with
  | Some s => VStr s
  | None => VNone
  end.

Definition handle_appointment_booking (f : Form.t) (env : save_env)
    (r : find_reply) (clock : nat -> datetime) : M (option string) :=
  let* w := get in
  match appointment_stage (session w) with
  | None =>
      modify_session (set_appointment_stage (Some "collect_info")) ;;
      modify_session (set_appointment_details ∅) ;;
      ret (Some "Please provide your details for the appointment booking.")
  | Some stage =>
      if String.eqb stage "collect_info" then
        emit FormHeader ;;
        let doctors := get_doctors_info in
        let* selected_doctor := doctor_loop doctors 0 (Form.doctor_button f) None in
        (if truthy_opt selected_doctor
         then st_success (Text ("Selected Doctor: " +:+ opt_str selected_doctor))
         else ret tt) ;;
        if Form.book f then
          if all_fields_filled f selected_doctor then
            let* d := lift (doctors_getitem doctors (opt_str selected_doctor)) in
            let appointment_details : gmap string value :=
              <["name" := VStr (Form.name f)]>
              (<["age" := VInt (Form.age f)]>
              (<["gender" := VStr (Form.gender f)]>
              (<["phone" := VStr (Form.phone f)]>
              (<["email" := VStr (Form.email f)]>
              (<["doctor" := value_of_opt selected_doctor]>
              (<["doctor_specialization" := VStr (specialization d)]>
              (<["slot" := value_of_opt (Form.preferred_slot f)]>
              (<["symptoms" := VStr (Form.symptoms f)]> ∅)))))))) in
            let* booking_id := save_appointment_to_db env appointment_details in
            if truthy_opt booking_id then
              modify_session (set_appointment_details appointment_details) ;;
              modify_session (set_appointment_stage (Some "confirmed")) ;;
              let* slots := get_available_slots r clock in
              modify_session (set_available_slots slots) ;;
              emit StBalloons ;;
              emit (BookingConfirmation (opt_str booking_id) (Form.name f)
                      (opt_str selected_doctor) (specialization d)
                      (opt_str (Form.preferred_slot f)) (Form.email f)) ;;
              modify_session (set_appointment_stage None) ;;
              modify_session (set_active_button None) ;;
              ret (Some "Your appointment has been booked successfully! Is there anything else I can help you with?")
            else ret None
          else
            st_error (Text "Please fill in all the required fields.") ;;
            ret None
        else ret None
      else ret None
  end.

(** ** Connecting to the database *)

(** Answer of the [MongoClient(...)] constructor. *)
Inductive client_reply : Type :=
  | ClientCreated
  | ClientRaises (e : exn).

(** What [test_mongodb_connection] reads from outside: the two
    environment variables, the constructor's answer and whether
    [client.server_info()] raises. *)
Record connect_env : Type := {
  MONGODB_URI : option string;
  MONGODB_DB : option string;
  mongo_client_reply : client_reply;
  server_info_error : option exn
}.

(** The function under [@st.cache_resource], on its first call. *)
Definition get_mongodb_client (env : connect_env) : M (option client) :=
  mtry
    (match mongo_client_reply env with
     | ClientCreated => ret (Some (MongoClient (MONGODB_URI env)))
     | ClientRaises e => raise e
     end)
    (fun e =>
       st_error (TextExn "Failed to initialize MongoDB client: " e) ;;
       ret None).

(** [if 'db_connection_shown' not in st.session_state: st.toast(...); ... = True]. *)
Definition toast_once (t : text) : M unit :=
  let* w := get in
  match db_connection_shown (session w) with
  | None =>
      st_toast t ;;
      modify_session (set_db_connection_shown (Some true))
  | Some _ => ret tt
  end.

Definition test_mongodb_connection (env : connect_env)
  : M (option client * option database) :=
  mtry
    (if negb (truthy_opt (MONGODB_URI env)) || negb (truthy_opt (MONGODB_DB env))
     then raise (ValueError "MongoDB URI or Database name is missing in .env file")
     else
       let* client := get_mongodb_client env in
       match client with
       | None => ret (None, None)
       | Some c =>
           let db := Database c (opt_str (MONGODB_DB env)) in
           (match server_info_error env with
            | Some e => raise e
            | None => ret tt
            end) ;;
           toast_once (Text "Database Connected") ;;
           ret (Some c, Some db)
       end)
    (fun e =>
       toast_once (TextExn "Database Connection Failed: " e) ;;
       ret (None, None)).

(** [mongo_client, db = test_mongodb_connection()]. *)
Definition init_connection (env : connect_env) : M unit :=
  let* p := test_mongodb_connection env in
  modify (set_globals (fst p) (snd p)).

(** ** Page buttons *)

Definition opt_eqb (o : option string) (s : string) : bool :=
  match o with
  | Some x => String.eqb x s
  | None => false
  end.

(** Body of [if st.button("Book Appointment", key="book")], up to
    [st.rerun()]. *)
Definition book_button_clicked : M unit :=
  let* w := get in
  if opt_eqb (active_button (session w)) "book" then
    modify_session (set_active_button None) ;;
    modify_session (set_appointment_stage None)
  else
    modify_session (set_active_button (Some "book")) ;;
    modify_session (set_appointment_stage (Some "collect_info")).

Fixpoint show_slots (l : list string) : M unit :=
  match l with
  | [] => ret tt
  | slot :: rest => emit (SlotLine slot) ;; show_slots rest
  end.

(** Body of [if st.button("View Available Slots", key="slots")]. *)
Definition slots_button_clicked : M unit :=
  let* w := get in
  (if opt_eqb (active_button (session w)) "slots"
   then modify_session (set_active_button None)
   else modify_session (set_active_button (Some "slots"))) ;;
  let* w := get in
  if opt_eqb (active_button (session w)) "slots" then
    let available_slots := firstn 5 (available_slots (session w)) in
    match available_slots with
    | [] => st_warning (Text "No available slots found")
    | _ => emit SlotsHeader ;; show_slots available_slots ;; emit SlotsFooter
    end
  else ret tt.

(** ** Chat *)

(** Answer of the assistant ([chat.send_message(prompt)] and
    [response.text]). *)
Inductive gemini_reply : Type :=
  | GeminiReturns (response_text : string)
  | GeminiRaises (e : exn).

Definition booking_keyword (s : string) : bool :=
  contains "appointment" (lower s) || contains "book" (lower s).

Definition get_gemini_response (r : gemini_reply) (question : string) : outcome string :=
  if booking_keyword question
  then Ret "I'll help you book an appointment. Let me guide you through the process."
  else
    try_except
      (match r with
       | GeminiReturns t => Ret t
       | GeminiRaises e => Raise e
       end)
      (fun _ => Ret "I apologize, but I'm having trouble processing your request. Please try asking your question again or contact our support team for assistance.").

Definition chat_append (role content : string) : M unit :=
  modify_session (fun s => set_chat_history (chat_history s ++ [(role, content)]) s).

(** The block guarded by [if submit_button and user_input and not
    st.session_state.processing]. *)
Definition chat_submit (submit_button : bool) (user_input : string)
    (r : gemini_reply) : M unit :=
  let* w := get in
  if submit_button && truthy_str user_input && negb (processing (session w)) then
    modify_session (set_processing true) ;;
    chat_append "user" user_input ;;
    (if booking_keyword user_input then
       modify_session (set_appointment_stage None) ;;
       let response := "I'll help you book an appointment. Let me guide you through the process." in
       chat_append "bot" response ;;
       modify_session (set_appointment_stage (Some "collect_info"))
     else
       mtry
         (let* bot_response := lift (get_gemini_response r user_input) in
          chat_append "bot" bot_response)
         (fun _ =>
            st_error (Text "I apologize, but I'm having trouble processing your request. Please try again."))) ;;
    modify_session (set_processing false)
  else ret tt.

(** The block [if st.session_state.appointment_stage is not None and
    st.session_state.active_button == "book"] of the page. *)
Definition booking_section (f : Form.t) (env : save_env) (r : find_reply)
    (clock : nat -> datetime) : M unit :=
  let* w := get in
  match appointment_stage (session w) with
  | Some _ =>
      if opt_eqb (active_button (session w)) "book" then
        let* booking_response := handle_appointment_booking f env r clock in
        if truthy_opt booking_response
        then emit (BotMessage (opt_str booking_response))
        else ret tt
      else ret tt
  | None => ret tt
  end.

(** ** Runs of the application *)

(** What can happen to the shared state: the script connects at start-up,
    a page button is pressed, a chat message is sent, the booking section
    runs, and, from any session of the process, a booking is saved or the
    availability is queried; the cache entry may also expire. *)
Inductive event : Type :=
  | EvConnect (env : connect_env)
  | EvBookButton
  | EvSlotsButton
  | EvChat (submit_button : bool) (user_input : string) (r : gemini_reply)
  | EvBooking (f : Form.t) (env : save_env) (r : find_reply) (clock : nat -> datetime)
  | EvSave (env : save_env) (appointment_details : gmap string value)
  | EvQuery (r : find_reply) (clock : nat -> datetime)
  | EvExpire.

Definition step (e : event) (w : world) : world :=
  match e with
  | EvConnect env => snd (init_connection env w)
  | EvBookButton => snd (book_button_clicked w)
  | EvSlotsButton => snd (slots_button_clicked w)
  | EvChat b i r => snd (chat_submit b i r w)
  | EvBooking f env r clock => snd (booking_section f env r clock w)
  | EvSave env d => snd (save_appointment_to_db env d w)
  | EvQuery r clock => snd (get_available_slots r clock w)
  | EvExpire => snd (ttl_expire w)
  end.

Definition run (es : list event) (w : world) : world := fold_left (fun w e => step e w) es w.

(** The store answers during the event: the connection is made and every
    read of the collection returns. *)
Definition connects (env : connect_env) : bool :=
  truthy_opt (MONGODB_URI env) && truthy_opt (MONGODB_DB env)
  && match mongo_client_reply env with ClientCreated => true | ClientRaises _ => false end
  && match server_info_error env with None => true | Some _ => false end.

Definition find_returns (r : find_reply) : bool :=
  match r with FindReturns => true | FindRaises _ => false end.

Definition store_answers (e : event) : bool :=
  match e with
  | EvConnect env => connects env
  | EvBooking _ _ r _ => find_returns r
  | EvQuery r _ => find_returns r
  | _ => true
  end.

(** ** Vocabulary of the specification *)

(** The six daily time templates. *)
Definition daily_templates : list string :=
  ["09:00 AM"; "10:00 AM"; "11:00 AM"; "02:00 PM"; "03:00 PM"; "04:00 PM"].

(** Every reading of the clock during one call falls on the day [today]. *)
Definition same_day (clock : nat -> datetime) (today : Z) : Prop :=
  forall i : nat, ordinal (clock i) = today.

(** Slots of the window starting at [today]: day-major, template-minor. *)
Definition window_slots (today : Z) : list string :=
  flat_map (fun i : nat =>
              map (fun t => ymd_string (today + Z.of_nat i) +:+ " " +:+ t) daily_templates)
           (seq 0 7).

Definition is_confirmed (a : appointment) : bool := String.eqb (status a) "confirmed".

(** [list_confirmed_slots()]. *)
Definition confirmed_slots (store : list appointment) : list string :=
  map appointment_slot (List.filter is_confirmed store).

(** Generated slots minus the confirmed ones, in generator order. *)
Definition generated_minus_confirmed (clock : nat -> datetime)
    (store : list appointment) : list string :=
  List.filter (fun s => negb (slot_in s (confirmed_slots store)))
              (generate_static_slots clock).

(** No two confirmed bookings hold the same slot. *)
Definition slot_unique (store : list appointment) : Prop :=
  NoDup (confirmed_slots store).

(** The document [save_appointment_to_db] builds from its argument, or the
    exception raised while building it. *)
Definition appointment_data (env : save_env)
    (appointment_details : gmap string value) : outcome appointment :=
  bind (getitem appointment_details "name") (fun v_name =>
  bind (getitem appointment_details "age") (fun v_age =>
  bind (int v_age) (fun n_age =>
  bind (getitem appointment_details "gender") (fun v_gender =>
  bind (getitem appointment_details "phone") (fun v_phone =>
  bind (getitem appointment_details "email") (fun v_email =>
  bind (getitem appointment_details "doctor") (fun v_doctor =>
  bind (getitem appointment_details "doctor_specialization") (fun v_spec =>
  bind (getitem appointment_details "slot") (fun v_slot =>
  bind (getitem appointment_details "symptoms") (fun v_symptoms =>
  Ret {| booking_id := str_uuid (uuid4 env);
         name := strip (str v_name);
         age := n_age;
         gender := strip (str v_gender);
         phone := strip (str v_phone);
         email := lower (strip (str v_email));
         doctor := str v_doctor;
         doctor_specialization := str v_spec;
         appointment_slot := str v_slot;
         symptoms := strip (str v_symptoms);
         status := "confirmed";
         created_at := now env;
         updated_at := now env |})))))))))).

Definition show (e : ui_event) (w : world) : world := set_ui (ui w ++ [e]) w.

(** The doctor selected by the buttons: the value of [selected_doctor]
    after the loop over the catalog. *)
Fixpoint pick_doctor (items : list (string * doctor_info)) (i : nat)
    (button : nat -> bool) (selected_doctor : option string) : option string :=
  match items with
  | [] => selected_doctor
  | (doctor_name, _) :: rest =>
      pick_doctor rest (S i) button
        (if button i then Some doctor_name else selected_doctor)
  end.

Definition form_doctor (f : Form.t) : option string :=
  pick_doctor get_doctors_info 0 (Form.doctor_button f) None.

(** The page once the form has been drawn. *)
Definition form_page (f : Form.t) (w : world) : world :=
  let w1 := set_ui ((ui w ++ [FormHeader]) ++ map (fun d => DoctorCard (fst d)) get_doctors_info) w in
  if truthy_opt (form_doctor f)
  then show (StSuccess (Text ("Selected Doctor: " +:+ opt_str (form_doctor f)))) w1
  else w1.

(** The dict passed to [save_appointment_to_db]. *)
Definition form_details (f : Form.t) (doctor : option string) (spec : string)
  : gmap string value :=
  <["name" := VStr (Form.name f)]>
  (<["age" := VInt (Form.age f)]>
  (<["gender" := VStr (Form.gender f)]>
  (<["phone" := VStr (Form.phone f)]>
  (<["email" := VStr (Form.email f)]>
  (<["doctor" := value_of_opt doctor]>
  (<["doctor_specialization" := VStr spec]>
  (<["slot" := value_of_opt (Form.preferred_slot f)]>
  (<["symptoms" := VStr (Form.symptoms f)]> ∅)))))))).

Definition form_specialization (f : Form.t) : string :=
  match doctors_getitem get_doctors_info (opt_str (form_doctor f)) with
  | Ret d => specialization d
  | Raise _ => EmptyString
  end.

Definition booked_message : string :=
  "Your appointment has been booked successfully! Is there anything else I can help you with?".

Definition required_fields_message : string :=
  "Please fill in all the required fields.".

(** The session and page after a booking is confirmed with [booking_id]
    and the refreshed slot list [slots]. *)
Definition confirmed_page (f : Form.t) (booking_id : string)
    (slots : list string) (w : world) : world :=
  let w1 := set_session (set_available_slots slots (session w)) w in
  let w2 := show StBalloons w1 in
  let w3 := show (BookingConfirmation booking_id (Form.name f)
                    (opt_str (form_doctor f)) (form_specialization f)
                    (opt_str (Form.preferred_slot f)) (Form.email f)) w2 in
  let w4 := set_session (set_appointment_stage None (session w3)) w3 in
  set_session (set_active_button None (session w4)) w4.

(** The session once [save_appointment_to_db] has returned an identifier:
    details stored and stage ['confirmed']. *)
Definition saved_session (details : gmap string value) (w : world) : world :=
  let w1 := set_session (set_appointment_details details (session w)) w in
  set_session (set_appointment_stage (Some "confirmed") (session w1)) w1.

(** The part of the world shared by the sessions of the process. *)
Definition store_of (w : world)
  : option client * option database * list appointment * option (list string) :=
  (mongo_client w, db w, appointments w, slots_cache w).

(** A document as the system writes it: confirmed, with both timestamps
    equal. *)
Definition well_stamped (doc : appointment) : Prop :=
  status doc = "confirmed" /\ created_at doc = updated_at doc.

(** What a cache miss of the availability query returns, from what it
    reads. *)
Definition computed_slots (r : find_reply) (clock : nat -> datetime)
    (missing : bool) (store : list appointment) : list string :=
  if missing then generate_static_slots clock
  else match r with
       | FindReturns => generated_minus_confirmed clock store
       | FindRaises _ => generate_static_slots clock
       end.

(** Slot [S] is taken and known to be: the store is connected, a confirmed
    booking holds [S], and a cached slot list, if any, leaves [S] out. *)
Definition taken (S : string) (w : world) : Prop :=
  globals_missing w = false
  /\ In S (confirmed_slots (appointments w))
  /\ (forall cached, slots_cache w = Some cached -> ~ In S cached).

(** A string without white space at either end. *)
Definition trimmed (s : string) : Prop :=
  (forall c, head s = Some c -> isspace c = false)
  /\ (forall c, last s = Some c -> isspace c = false).

(** What drawing the form adds to the page. *)
Definition form_events (f : Form.t) : list ui_event :=
  FormHeader :: map (fun d => DoctorCard (fst d)) get_doctors_info
  ++ (if truthy_opt (form_doctor f)
      then [StSuccess (Text ("Selected Doctor: " +:+ opt_str (form_doctor f)))]
      else []).

(** The required fields a draft leaves missing or empty, by the names the
    specification gives them. *)
Definition missing_fields (f : Form.t) : list string :=
  (if truthy_str (Form.name f) then [] else ["name"])
  ++ (if Form.age f =? 0 then ["age"] else [])
  ++ (if String.eqb (Form.gender f) "Select" then ["gender"] else [])
  ++ (if truthy_str (Form.phone f) then [] else ["phone"])
  ++ (if truthy_str (Form.email f) then [] else ["email"])
  ++ (if truthy_opt (form_doctor f) then [] else ["doctor"])
  ++ (if truthy_opt (Form.preferred_slot f) then [] else ["slot"])
  ++ (if truthy_str (Form.symptoms f) then [] else ["symptoms"]).

(** The message mentions the field, in any letter case. *)
Definition names_field (t : text) (field : string) : bool :=
  match t with
  | Text s => contains field (lower s)
  | TextExn prefix _ => contains field (lower prefix)
  end.

(** Several calls of [save_appointment_to_db] with the same argument, one
    after the other. *)
Fixpoint save_all (envs : list save_env) (appointment_details : gmap string value)
    (w : world) : list (outcome (option string)) * world :=
  match envs with
  | [] => ([], w)
  | env :: rest =>
      let '(res, w1) := save_appointment_to_db env appointment_details w in
      let '(results, w2) := save_all rest appointment_details w1 in
      (res :: results, w2)
  end.

(** Number of toasts among the events. *)
Definition count_toasts (evs : list ui_event) : nat :=
  List.length (List.filter (fun e => match e with StToast _ => true | _ => false end) evs).

Definition canned_reply : string :=
  "I'll help you book an appointment. Let me guide you through the process.".

Definition apology : string :=
  "I apologize, but I'm having trouble processing your request. Please try asking your question again or contact our support team for assistance.".

(** The keys [save_appointment_to_db] reads from its argument. *)
Definition required_keys : list string :=
  ["name"; "age"; "gender"; "phone"; "email"; "doctor";
   "doctor_specialization"; "slot"; "symptoms"].

Definition acknowledged (env : save_env) : Prop :=
  insert_one_reply env = InsertAcknowledged.

(** The booking is submitted: the form is shown and its button pressed. *)
Definition submitting (f : Form.t) (w : world) : Prop :=
  appointment_stage (session w) = Some "collect_info" /\ Form.book f = true.

(** What the run adds to the page. *)
Definition shown (w w' : world) : list ui_event := skipn (List.length (ui w)) (ui w').

(** ** Sample data *)

(** A connected process with an empty cache, and a confirmed booking at
    2024-06-01 09:00 AM. *)
Definition june_1 : datetime := {| ordinal := 739038; microsecond := 0 |}.

Definition idle_session : session_state :=
  {| appointment_stage := None; appointment_details := ∅; available_slots := [];
     active_button := None; db_connection_shown := Some true;
     chat_history := []; processing := false |}.

Definition one_booking : appointment :=
  {| booking_id := "00000000-0000-4000-8000-000000000001"; name := "Ann";
     age := 30; gender := "Female"; phone := "555"; email := "ann@example.org";
     doctor := "Dr. John Smith"; doctor_specialization := "General Physician";
     appointment_slot := "2024-06-01 09:00 AM"; symptoms := "cough";
     status := "confirmed"; created_at := june_1; updated_at := june_1 |}.

Definition form_session : session_state :=
  {| appointment_stage := Some "collect_info"; appointment_details := ∅;
     available_slots := []; active_button := Some "book";
     db_connection_shown := Some true; chat_history := []; processing := false |}.

Definition ann_form : Form.t :=
  {| Form.name := " Ann "; Form.age := 30; Form.gender := "Female";
     Form.phone := "555 0100"; Form.email := " Ann@Example.ORG ";
     Form.doctor_button := fun i => Nat.eqb i 1;
     Form.preferred_slot := Some "2024-06-01 09:00 AM";
     Form.symptoms := "cough "; Form.book := true |}.

(** The same draft with the email left empty. *)
Definition no_email_form : Form.t :=
  {| Form.name := "Ann"; Form.age := 30; Form.gender := "Female";
     Form.phone := "555 0100"; Form.email := "";
     Form.doctor_button := fun i => Nat.eqb i 1;
     Form.preferred_slot := Some "2024-06-01 09:00 AM";
     Form.symptoms := "cough"; Form.book := true |}.

Definition ann_details : gmap string value :=
  form_details ann_form (Some "Dr. Sarah Johnson") "Cardiologist".

Definition env_1 : save_env :=
  {| uuid4 := 1; now := june_1; insert_one_reply := InsertAcknowledged |}.

Definition env_2 : save_env :=
  {| uuid4 := 2; now := june_1; insert_one_reply := InsertAcknowledged |}.

Definition env_ok : connect_env :=
  {| MONGODB_URI := Some "mongodb://localhost"; MONGODB_DB := Some "clinic";
     mongo_client_reply := ClientCreated; server_info_error := None |}.

Definition env_unreachable : connect_env :=
  {| MONGODB_URI := Some "mongodb://localhost"; MONGODB_DB := Some "clinic";
     mongo_client_reply := ClientCreated;
     server_info_error := Some (PyMongoError "no servers") |}.

(** A session that has not been told about the connection yet. *)
Definition fresh_world : world :=
  {| mongo_client := None; db := None; appointments := []; slots_cache := None;
     session :=
       {| appointment_stage := None; appointment_details := ∅;
          available_slots := []; active_button := None;
          db_connection_shown := None; chat_history := []; processing := false |};
     ui := [] |}.

Definition env_down : save_env :=
  {| uuid4 := 3; now := june_1;
     insert_one_reply := InsertRaises (PyMongoError "timed out") |}.

(** A confirmed booking of [slot], and a store holding one for each slot
    of the window of June 1st. *)
Definition booking_at (slot : string) : appointment :=
  {| booking_id := "00000000-0000-4000-8000-000000000002"; name := "Bob";
     age := 41; gender := "Male"; phone := "555 0101"; email := "bob@example.org";
     doctor := "Dr. Emily Williams"; doctor_specialization := "Dermatologist";
     appointment_slot := slot; symptoms := "rash";
     status := "confirmed"; created_at := june_1; updated_at := june_1 |}.

Definition full_store : list appointment :=
  map booking_at (generate_static_slots (fun _ : nat => june_1)).

(** The booking of 2024-06-01 09:00 AM with its status changed by hand. *)
Definition cancelled_booking : appointment :=
  {| booking_id := "00000000-0000-4000-8000-000000000003"; name := "Ann";
     age := 30; gender := "Female"; phone := "555"; email := "ann@example.org";
     doctor := "Dr. John Smith"; doctor_specialization := "General Physician";
     appointment_slot := "2024-06-01 09:00 AM"; symptoms := "cough";
     status := "cancelled"; created_at := june_1; updated_at := june_1 |}.

(** A draft whose name is a single space. *)
Definition blank_name_form : Form.t :=
  {| Form.name := " "; Form.age := 30; Form.gender := "Female";
     Form.phone := "555 0100"; Form.email := "ann@example.org";
     Form.doctor_button := fun i => Nat.eqb i 1;
     Form.preferred_slot := Some "2024-06-01 09:00 AM";
     Form.symptoms := "cough"; Form.book := true |}.

Definition connected_world (store : list appointment) : world :=
  let c := MongoClient (Some "mongodb://localhost") in
  {| mongo_client := Some c; db := Some (Database c "clinic");
     appointments := store; slots_cache := None;
     session := idle_session; ui := [] |}.

Definition form_world (store : list appointment) : world :=
  set_session form_session (connected_world store).

End App.
(* ===================================================================== *)
(** * Properties                                                          *)
(* ===================================================================== *)

Import Py Date App.

(** ** Strings *)

Module StrFacts.

Ltac all_chars c := destruct c as [[] [] [] [] [] [] [] []]; vm_compute; try reflexivity.

Lemma lower_char_idem c : lower_char (lower_char c) = lower_char c.
Proof. all_chars c. Qed.

Lemma isupper_lower_char c : isupper (lower_char c) = false.
Proof. all_chars c. Qed.

Lemma isspace_lower_char c : isspace (lower_char c) = isspace c.
Proof. all_chars c. Qed.

Lemma lower_idem s : lower (lower s) = lower s.
Proof. induction s as [|c s IH]; simpl; [reflexivity|]. now rewrite lower_char_idem, IH. Qed.

Lemma no_upper_lower s : no_upper (lower s) = true.
Proof. induction s as [|c s IH]; simpl; [reflexivity|]. now rewrite isupper_lower_char, IH. Qed.

Lemma lstrip_lower s : lstrip (lower s) = lower (lstrip s).
Proof.
  induction s as [|c s IH]; simpl; [reflexivity|].
  rewrite isspace_lower_char. destruct (isspace c); [exact IH | reflexivity].
Qed.

Lemma rstrip_lower s : rstrip (lower s) = lower (rstrip s).
Proof.
  induction s as [|c s IH]; simpl; [reflexivity|].
  rewrite IH. destruct (rstrip s); simpl.
  - rewrite isspace_lower_char. now destruct (isspace c).
  - reflexivity.
Qed.

Lemma strip_lower s : strip (lower s) = lower (strip s).
Proof. unfold strip. now rewrite lstrip_lower, rstrip_lower. Qed.

Lemma head_lstrip s c : head (lstrip s) = Some c -> isspace c = false.
Proof.
  induction s as [|a s IH]; simpl; [discriminate|].
  destruct (isspace a) eqn:E; [exact IH|]. simpl. intros [= <-]. exact E.
Qed.

Lemma last_rstrip s c : last (rstrip s) = Some c -> isspace c = false.
Proof.
  revert c. induction s as [|a s IH]; simpl; intros c; [discriminate|].
  destruct (rstrip s) as [|b r] eqn:E.
  - destruct (isspace a) eqn:Ea; simpl; [discriminate|]. now intros [= <-].
  - simpl. destruct r; apply IH.
Qed.

Lemma rstrip_idem s : rstrip (rstrip s) = rstrip s.
Proof.
  induction s as [|a s IH]; simpl; [reflexivity|].
  destruct (rstrip s) as [|b r] eqn:E.
  - destruct (isspace a) eqn:Ea; simpl; [reflexivity|]. now rewrite Ea.
  - simpl. simpl in IH. destruct (rstrip r) eqn:Er.
    + destruct (isspace b); [discriminate|]. now inversion IH.
    + now inversion IH.
Qed.

(** [rstrip] keeps the first character of a string that does not start
    with white space. *)
Lemma head_rstrip s c : head s = Some c -> isspace c = false -> head (rstrip s) = Some c.
Proof.
  destruct s as [|a s]; simpl; [discriminate|]. intros [= ->] H.
  destruct (rstrip s); [now rewrite H|reflexivity].
Qed.

Lemma lstrip_fix s : (forall c, head s = Some c -> isspace c = false) -> lstrip s = s.
Proof.
  destruct s as [|a s]; simpl; [reflexivity|]. intros H. now rewrite (H a eq_refl).
Qed.

Lemma head_rstrip_inv s c : head (rstrip s) = Some c -> head s = Some c.
Proof.
  destruct s as [|a s]; simpl; [discriminate|].
  destruct (rstrip s); [destruct (isspace a); [discriminate|]|]; simpl; auto.
Qed.

Lemma head_strip s c : head (strip s) = Some c -> isspace c = false.
Proof. unfold strip. intros H. apply head_rstrip_inv in H. eapply head_lstrip; eauto. Qed.

Lemma last_strip s c : last (strip s) = Some c -> isspace c = false.
Proof. apply last_rstrip. Qed.

Lemma strip_idem s : strip (strip s) = strip s.
Proof.
  unfold strip. rewrite (lstrip_fix (rstrip (lstrip s))).
  - apply rstrip_idem.
  - intros c H. apply head_rstrip_inv in H. eapply head_lstrip; eauto.
Qed.

End StrFacts.

(** ** Dates *)

Module DateFacts.

Lemma forallb_range (f : Z -> bool) (k : nat) :
  forallb f (map Z.of_nat (seq 0 k)) = true ->
  forall n, 0 <= n < Z.of_nat k -> f n = true.
Proof.
  intros H n Hn. rewrite forallb_forall in H. apply H.
  apply in_map_iff. exists (Z.to_nat n). split; [lia|]. apply in_seq. lia.
Qed.

Lemma month_day_spec leap n :
  0 <= n < 365 -> month_day_ok leap n = true.
Proof.
  intros Hn. revert n Hn. change 365 with (Z.of_nat 365).
  apply forallb_range. destruct leap; vm_compute; reflexivity.
Qed.

Lemma days_before_year_cyc a b c e :
  0 <= a -> 0 <= b <= 3 -> 0 <= c <= 24 -> 0 <= e <= 3 ->
  days_before_year (cyc a b c e) = 146097 * a + 36524 * b + 1461 * c + 365 * e.
Proof.
  intros. unfold days_before_year, cyc. Z.div_mod_to_equations. lia.
Qed.

Lemma is_leap_cyc a b c e :
  0 <= a -> 0 <= b <= 3 -> 0 <= c <= 24 -> 0 <= e <= 3 ->
  is_leap (cyc a b c e) = (e =? 3) && (negb (c =? 24) || (b =? 3)).
Proof.
  intros. unfold is_leap, cyc.
  destruct (Z.eqb_spec e 3), (Z.eqb_spec c 24), (Z.eqb_spec b 3);
    destruct (Z.eqb_spec ((400 * a + 100 * b + 4 * c + e + 1) mod 4) 0);
    destruct (Z.eqb_spec ((400 * a + 100 * b + 4 * c + e + 1) mod 100) 0);
    destruct (Z.eqb_spec ((400 * a + 100 * b + 4 * c + e + 1) mod 400) 0);
    simpl; try reflexivity; exfalso; Z.div_mod_to_equations; lia.
Qed.

Lemma ord2ymd_spec n :
  1 <= n <= MAXORDINAL ->
  let '(y, m, d) := ord2ymd n in
  1 <= y <= 9999 /\ 1 <= m <= 12 /\ 1 <= d <= 31 /\ ymd2ord (y, m, d) = n.
Proof.
  intros Hn. unfold ord2ymd, MAXORDINAL, DI400Y, DI100Y, DI4Y in *.
  set (n0 := n - 1).
  set (n400 := n0 / 146097). set (r1 := n0 mod 146097).
  set (n100 := r1 / 36524). set (r2 := r1 mod 36524).
  set (n4 := r2 / 1461). set (r3 := r2 mod 1461).
  set (n1 := r3 / 365). set (r4 := r3 mod 365).
  assert (H0 : 0 <= n0 < 3652059) by (unfold n0; lia).
  assert (E1 : n0 = 146097 * n400 + r1 /\ 0 <= r1 < 146097)
    by (unfold n400, r1; split; [apply Z.div_mod; lia | apply Z.mod_pos_bound; lia]).
  assert (E2 : r1 = 36524 * n100 + r2 /\ 0 <= r2 < 36524)
    by (unfold n100, r2; split; [apply Z.div_mod; lia | apply Z.mod_pos_bound; lia]).
  assert (E3 : r2 = 1461 * n4 + r3 /\ 0 <= r3 < 1461)
    by (unfold n4, r3; split; [apply Z.div_mod; lia | apply Z.mod_pos_bound; lia]).
  assert (E4 : r3 = 365 * n1 + r4 /\ 0 <= r4 < 365)
    by (unfold n1, r4; split; [apply Z.div_mod; lia | apply Z.mod_pos_bound; lia]).
  clearbody n400 r1 n100 r2 n4 r3 n1 r4.
  destruct E1 as [E1 B1], E2 as [E2 B2], E3 as [E3 B3], E4 as [E4 B4].
  assert (0 <= n400 <= 24) by lia.
  assert (0 <= n100 <= 4) by lia.
  assert (0 <= n4 <= 24) by lia.
  assert (0 <= n1 <= 4) by lia.
  destruct ((n1 =? 4) || (n100 =? 4)) eqn:Esp.
  - (* the 366th day of a leap year *)
    assert (Hy : exists b c, 0 <= b <= 3 /\ 0 <= c <= 24 /\
               n400 * 400 + 1 + n100 * 100 + n4 * 4 + n1 - 1 = cyc n400 b c 3 /\
               146097 * n400 + 36524 * b + 1461 * c + 365 * 3 + 365 = n0 /\
               ((3 =? 3) && (negb (c =? 24) || (b =? 3))) = true).
    { apply orb_true_iff in Esp. destruct Esp as [E|E]; apply Z.eqb_eq in E.
      - exists n100, n4. unfold cyc.
        assert (n100 <= 3) by lia.
        assert (Hl : (3 =? 3) && (negb (n4 =? 24) || (n100 =? 3)) = true).
        { simpl. destruct (Z.eqb_spec n4 24); simpl; [|reflexivity].
          apply Z.eqb_eq. lia. }
        rewrite Hl. repeat split; lia.
      - exists 3, 24. unfold cyc. simpl. repeat split; lia. }
    destruct Hy as (b & c & Hb & Hc & -> & Hn0 & Hl).
    unfold ymd2ord. rewrite is_leap_cyc, days_before_year_cyc, Hl by lia.
    unfold cyc. simpl. lia.
  - apply orb_false_iff in Esp. destruct Esp as [N1 N100].
    apply Z.eqb_neq in N1, N100.
    assert (n1 <= 3) by lia. assert (n100 <= 3) by lia.
    pose proof (month_day_spec ((n1 =? 3) && (negb (n4 =? 24) || (n100 =? 3))) r4 B4) as Hmd.
    unfold month_day_ok in Hmd.
    destruct (month_day ((n1 =? 3) && (negb (n4 =? 24) || (n100 =? 3))) r4) as [m d].
    replace (n400 * 400 + 1 + n100 * 100 + n4 * 4 + n1) with (cyc n400 n100 n4 n1)
      by (unfold cyc; lia).
    unfold ymd2ord. rewrite is_leap_cyc, days_before_year_cyc by lia.
    repeat (apply andb_true_iff in Hmd; destruct Hmd as [Hmd ?]).
    unfold cyc. lia.
Qed.

Lemma ord2ymd_inj n n' :
  1 <= n <= MAXORDINAL -> 1 <= n' <= MAXORDINAL -> ord2ymd n = ord2ymd n' -> n = n'.
Proof.
  intros H H' E. pose proof (ord2ymd_spec n H) as S. pose proof (ord2ymd_spec n' H') as S'.
  rewrite E in S. destruct (ord2ymd n') as [[y m] d].
  destruct S as (_ & _ & _ & <-), S' as (_ & _ & _ & <-). reflexivity.
Qed.

End DateFacts.

(** ** Date strings *)

Module DateStrings.
Import DateFacts.

Lemma digit_inj a b : digit a = digit b -> a mod 10 = b mod 10.
Proof.
  unfold digit, digit_char. intros E.
  assert (Ha : 0 <= a mod 10 < 10) by (apply Z.mod_pos_bound; lia).
  assert (Hb : 0 <= b mod 10 < 10) by (apply Z.mod_pos_bound; lia).
  apply (f_equal N_of_ascii) in E.
  rewrite !N_ascii_embedding in E by lia. lia.
Qed.

Lemma length_ymd_string n : String.length (ymd_string n) = 10%nat.
Proof. unfold ymd_string. destruct (ord2ymd n) as [[y m] d]. reflexivity. Qed.

(** Within the dates Python can represent, the date string determines the
    day. *)
Lemma ymd_string_inj n n' :
  1 <= n <= MAXORDINAL -> 1 <= n' <= MAXORDINAL ->
  ymd_string n = ymd_string n' -> n = n'.
Proof.
  intros H H' E. apply ord2ymd_inj; try assumption.
  pose proof (ord2ymd_spec n H) as S. pose proof (ord2ymd_spec n' H') as S'.
  unfold ymd_string in E.
  destruct (ord2ymd n) as [[y m] d], (ord2ymd n') as [[y' m'] d'].
  destruct S as (Hy & Hm & Hd & _), S' as (Hy' & Hm' & Hd' & _).
  unfold pad4, pad2 in E. simpl in E.
  injection E as E1 E2 E3 E4 E5 E6 E7 E8.
  apply digit_inj in E1, E2, E3, E4, E5, E6, E7, E8.
  assert (y = y') by (Z.div_mod_to_equations; lia).
  assert (m = m') by (Z.div_mod_to_equations; lia).
  assert (d = d') by (Z.div_mod_to_equations; lia).
  congruence.
Qed.

Lemma append_inj_length a c b d :
  String.length a = String.length c -> a +:+ b = c +:+ d -> a = c /\ b = d.
Proof.
  revert c. induction a as [|x a IH]; intros [|y c]; simpl; try discriminate.
  - auto.
  - intros [= L] [= -> E]. destruct (IH c L E) as [-> ->]. auto.
Qed.

End DateStrings.

(** ** The slot generator *)

Module SlotFacts.
Import DateFacts DateStrings.

Lemma fold_extend {A : Type} (f : nat -> list A) (l : list nat) (init : list A) :
  fold_left (fun slots i => slots ++ f i) l init = init ++ flat_map f l.
Proof.
  revert init. induction l as [|i l IH]; intros init; simpl.
  - now rewrite app_nil_r.
  - rewrite IH. now rewrite <- app_assoc.
Qed.

Lemma generate_static_slots_flat_map clock :
  generate_static_slots clock
  = flat_map (fun i => day_slots (slot_date clock i)) (seq 0 7).
Proof. unfold generate_static_slots. now rewrite fold_extend. Qed.

Lemma day_slots_templates date :
  day_slots date = map (fun t => date +:+ " " +:+ t) daily_templates.
Proof. reflexivity. Qed.

Lemma slot_date_same_day clock today i :
  same_day clock today -> slot_date clock i = ymd_string (today + Z.of_nat i).
Proof. intros H. unfold slot_date, strftime_ymd, add_days. simpl. now rewrite H. Qed.

Lemma generate_same_day clock today :
  same_day clock today -> generate_static_slots clock = window_slots today.
Proof.
  intros H. rewrite generate_static_slots_flat_map. unfold window_slots.
  apply flat_map_ext. intros i. rewrite day_slots_templates.
  now rewrite (slot_date_same_day clock today i H).
Qed.

Lemma length_generate_static_slots clock :
  List.length (generate_static_slots clock) = 42%nat.
Proof. reflexivity. Qed.

Lemma NoDup_flat_map {A B : Type} (f : A -> list B) (l : list A) :
  NoDup l ->
  (forall x, In x l -> NoDup (f x)) ->
  (forall x y b, In x l -> In y l -> In b (f x) -> In b (f y) -> x = y) ->
  NoDup (flat_map f l).
Proof.
  induction l as [|a l IH]; intros Hl Hf Hd; simpl; [constructor|].
  apply NoDup_cons in Hl as [Ha Hl'].
  apply NoDup_app. split; [|split].
  - apply Hf. now left.
  - intros b Hb Hb'. apply list_elem_of_In in Hb, Hb'.
    apply in_flat_map in Hb' as (y & Hy & Hby).
    assert (a = y) by (apply (Hd a y b); simpl; auto). subst.
    apply Ha. now apply list_elem_of_In.
  - apply IH; auto.
    + intros x Hx. apply Hf. now right.
    + intros x y b Hx Hy. apply Hd; now right.
Qed.

Lemma NoDup_map_inj {A B : Type} (f : A -> B) (l : list A) :
  (forall x y, f x = f y -> x = y) -> NoDup l -> NoDup (map f l).
Proof.
  intros Hf. induction l as [|a l IH]; simpl; intros Hl; [constructor|].
  apply NoDup_cons in Hl as [Ha Hl']. apply NoDup_cons. split; [|auto].
  rewrite list_elem_of_In, in_map_iff. intros (x & E & Hx).
  apply Hf in E. subst. apply Ha. now apply list_elem_of_In.
Qed.

Lemma NoDup_daily_templates : NoDup daily_templates.
Proof.
  unfold daily_templates.
  repeat (apply NoDup_cons; split;
          [rewrite list_elem_of_In; simpl; intros H;
           repeat (destruct H as [H|H]; [discriminate H|]); exact H|]).
  constructor.
Qed.

(** The 42 slots of a window of representable dates are pairwise
    different. *)
Lemma NoDup_window_slots today :
  1 <= today -> today + 6 <= MAXORDINAL -> NoDup (window_slots today).
Proof.
  intros Hlo Hhi. unfold window_slots. apply NoDup_flat_map.
  - apply NoDup_seq.
  - intros i _. apply NoDup_map_inj; [|apply NoDup_daily_templates].
    intros t t' E. apply append_inj_length in E; [|reflexivity].
    destruct E as [_ E]. now injection E.
  - intros i j b Hi Hj Hbi Hbj.
    apply in_seq in Hi, Hj.
    apply in_map_iff in Hbi as (t & <- & _), Hbj as (t' & E & _).
    apply append_inj_length in E; [|now rewrite !length_ymd_string].
    destruct E as [E _]. apply ymd_string_inj in E; lia.
Qed.

(** Position [6 * i + j] of the window holds template [j] of day [i]. *)
Lemma window_slots_nth today (i j : nat) (t : string) :
  (i < 7)%nat -> nth_error daily_templates j = Some t ->
  nth_error (window_slots today) (6 * i + j)
  = Some (ymd_string (today + Z.of_nat i) +:+ " " +:+ t).
Proof.
  intros Hi Hj.
  assert (Hj6 : (j < 6)%nat)
    by (apply (proj1 (nth_error_Some daily_templates j)); congruence).
  unfold window_slots.
  do 7 (destruct i as [|i]; [
    do 6 (destruct j as [|j]; [cbn in Hj |- *; injection Hj as <-; reflexivity|]); lia |]).
  lia.
Qed.

(** C7. Slot generation is determined by the current date: when every
    clock reading of the call falls on the day [today], the result is the
    window of [today], which has exactly 42 slots, day-major and, within a
    day, in the order of the six templates 09:00 AM, 10:00 AM, 11:00 AM,
    02:00 PM, 03:00 PM, 04:00 PM. *)
Theorem generate_static_slots_window (clock : nat -> datetime) (today : Z) :
  same_day clock today ->
  generate_static_slots clock = window_slots today
  /\ List.length (generate_static_slots clock) = 42%nat
  /\ daily_templates
     = ["09:00 AM"; "10:00 AM"; "11:00 AM"; "02:00 PM"; "03:00 PM"; "04:00 PM"]
  /\ (forall (i j : nat) (t : string),
        (i < 7)%nat -> nth_error daily_templates j = Some t ->
        nth_error (generate_static_slots clock) (6 * i + j)
        = Some (ymd_string (today + Z.of_nat i) +:+ " " +:+ t)).
Proof.
  intros H. split; [|split; [|split]].
  - now apply generate_same_day.
  - apply length_generate_static_slots.
  - reflexivity.
  - intros i j t Hi Hj. rewrite (generate_same_day clock today H).
    now apply window_slots_nth.
Qed.

Lemma generate_static_slots_window_witness :
  let clock := fun _ : nat => {| ordinal := 739038; microsecond := 0 |} in
  same_day clock 739038
  /\ generate_static_slots clock = window_slots 739038
  /\ nth_error (generate_static_slots clock) (6 * 1 + 3) = Some "2024-06-02 02:00 PM".
Proof.
  assert (H : same_day (fun _ : nat => {| ordinal := 739038; microsecond := 0 |}) 739038)
    by (intros i; reflexivity).
  destruct (generate_static_slots_window _ 739038 H) as (E & _ & _ & N).
  split; [exact H|]. split; [exact E|].
  exact (N 1%nat 3%nat "02:00 PM" ltac:(lia) eq_refl).
Defined.

End SlotFacts.

(** ** The availability query *)

Module Availability.
Import SlotFacts.

Lemma filter_flat_map {A B : Type} (p : B -> bool) (f : A -> list B) (l : list A) :
  List.filter p (flat_map f l) = flat_map (fun x => List.filter p (f x)) l.
Proof.
  induction l as [|a l IH]; simpl; [reflexivity|].
  now rewrite List.filter_app, IH.
Qed.

(** The loop of the query, which filters day by day, computes the filter
    of the whole generated sequence. *)
Lemma filtered_loop clock (p : string -> bool) :
  fold_left (fun slots i => slots ++ List.filter p (day_slots (slot_date clock i)))
            (seq 0 7) []
  = List.filter p (generate_static_slots clock).
Proof.
  rewrite (fold_extend (fun i => List.filter p (day_slots (slot_date clock i)))).
  rewrite generate_static_slots_flat_map, filter_flat_map. reflexivity.
Qed.

Lemma slot_in_In s l : slot_in s l = true <-> In s l.
Proof.
  unfold slot_in. rewrite existsb_exists. split.
  - intros (x & Hx & E). apply String.eqb_eq in E. now subst.
  - intros H. exists s. split; [assumption | apply String.eqb_refl].
Qed.

Lemma wrapped_no_connection r clock w :
  globals_missing w = true ->
  get_available_slots_wrapped r clock w = (Ret (generate_static_slots clock), w).
Proof.
  intros H. unfold get_available_slots_wrapped, mtry, mbind, get, ret. now rewrite H.
Qed.

Lemma wrapped_read_fails e clock w :
  globals_missing w = false ->
  get_available_slots_wrapped (FindRaises e) clock w
  = (Ret (generate_static_slots clock),
     set_ui (ui w ++ [StError (TextExn "Error fetching available slots: " e)]) w).
Proof.
  intros H. unfold get_available_slots_wrapped, mtry, mbind, get, ret. now rewrite H.
Qed.

Lemma wrapped_read_returns clock w :
  globals_missing w = false ->
  get_available_slots_wrapped FindReturns clock w
  = (Ret (generated_minus_confirmed clock (appointments w)),
     match generated_minus_confirmed clock (appointments w) with
     | [] => set_ui (ui w ++ [StWarning (Text "No available slots found for the next 7 days")]) w
     | _ => w
     end).
Proof.
  intros H.
  unfold get_available_slots_wrapped, mtry, mbind, get, ret, find_confirmed.
  rewrite H. cbv beta iota. unfold mbind, get, ret.
  rewrite filtered_loop.
  change (List.filter _ (generate_static_slots clock))
    with (generated_minus_confirmed clock (appointments w)).
  destruct (generated_minus_confirmed clock (appointments w)); reflexivity.
Qed.

(** The query returns, whatever the store does. *)
Lemma wrapped_returns r clock w :
  exists slots w', get_available_slots_wrapped r clock w = (Ret slots, w')
                   /\ appointments w' = appointments w
                   /\ slots_cache w' = slots_cache w
                   /\ session w' = session w
                   /\ mongo_client w' = mongo_client w /\ db w' = db w.
Proof.
  destruct (globals_missing w) eqn:G.
  - rewrite wrapped_no_connection by assumption. eauto 10.
  - destruct r as [|e].
    + rewrite wrapped_read_returns by assumption.
      destruct (generated_minus_confirmed clock (appointments w)); eauto 10.
    + rewrite wrapped_read_fails by assumption. eauto 10.
Qed.

Lemma cached_hit r clock w cached :
  slots_cache w = Some cached -> get_available_slots r clock w = (Ret cached, w).
Proof. intros H. unfold get_available_slots, mbind, get, ret. now rewrite H. Qed.

Lemma cached_miss r clock w slots w' :
  slots_cache w = None ->
  get_available_slots_wrapped r clock w = (Ret slots, w') ->
  get_available_slots r clock w = (Ret slots, set_slots_cache (Some slots) w').
Proof.
  intros H E. unfold get_available_slots, mbind, get, ret, modify. now rewrite H, E.
Qed.

Lemma In_generated_minus_confirmed s clock store :
  In s (generated_minus_confirmed clock store)
  <-> In s (generate_static_slots clock) /\ ~ In s (confirmed_slots store).
Proof.
  unfold generated_minus_confirmed. rewrite filter_In, negb_true_iff.
  pose proof (slot_in_In s (confirmed_slots store)) as H.
  destruct (slot_in s (confirmed_slots store)).
  - split; [intros [_ E]; discriminate E | intros [_ N]; exfalso; apply N, H; reflexivity].
  - split; [intros [G _]; split; [exact G | intros N; apply H in N; discriminate N]
           | intros [G _]; auto].
Qed.

Lemma filter_all {A : Type} (p : A -> bool) (l : list A) :
  (forall t, In t l -> p t = true) -> List.filter p l = l.
Proof.
  induction l as [|a l IH]; intros H; [reflexivity|]. cbn [List.filter].
  rewrite (H a) by now left. f_equal. apply IH. intros t Ht. apply H. now right.
Qed.

Lemma not_slot_in_single t s : negb (slot_in t [s]) = negb (String.eqb t s).
Proof. unfold slot_in. simpl. now rewrite orb_false_r. Qed.

(** Removing one slot of a duplicate-free list leaves one slot fewer. *)
Lemma filter_remove_one (l : list string) (s : string) :
  NoDup l -> In s l ->
  S (List.length (List.filter (fun t => negb (slot_in t [s])) l)) = List.length l.
Proof.
  set (p := fun t => negb (slot_in t [s])).
  induction l as [|a l IH]; intros Hl Hs; [destruct Hs|].
  apply NoDup_cons in Hl as [Ha Hl']. cbn [List.filter List.length].
  assert (Ep : p a = negb (String.eqb a s)) by apply not_slot_in_single.
  destruct (String.eqb_spec a s) as [->|Hne]; rewrite Ep; cbn [negb].
  - f_equal. rewrite filter_all; [reflexivity|].
    intros t Ht. unfold p. rewrite not_slot_in_single.
    destruct (String.eqb_spec t s) as [->|]; [|reflexivity].
    exfalso. apply Ha. now apply list_elem_of_In.
  - cbn [List.length]. f_equal. apply IH; [assumption|].
    destruct Hs as [->|Hs]; [congruence|assumption].
Qed.

Lemma filter_sublist {A : Type} (p : A -> bool) (l : list A) :
  List.filter p l `sublist_of` l.
Proof.
  induction l as [|a l IH]; simpl; [constructor|].
  destruct (p a); [apply sublist_skip | apply sublist_cons]; exact IH.
Qed.

(** C2. With the store answering, the availability query returns, for
    every content of the booking store, exactly the generated slot
    sequence minus the slots of the confirmed bookings, in generator
    order; the same holds for the cached query once the cache has been
    invalidated; no returned slot has a confirmed booking; and with one
    confirmed booking at a generated slot of a 42-slot window, exactly
    that slot is left out and the other 41 are returned. *)
Theorem available_slots_generated_minus_confirmed
    (clock : nat -> datetime) (w : world) :
  globals_missing w = false ->
  let result := generated_minus_confirmed clock (appointments w) in
  fst (get_available_slots_wrapped FindReturns clock w) = Ret result
  /\ (slots_cache w = None ->
      fst (get_available_slots FindReturns clock w) = Ret result)
  /\ result `sublist_of` generate_static_slots clock
  /\ (forall s, In s result <->
                In s (generate_static_slots clock)
                /\ ~ In s (confirmed_slots (appointments w)))
  /\ (forall today s,
        same_day clock today -> 1 <= today -> today + 6 <= MAXORDINAL ->
        confirmed_slots (appointments w) = [s] ->
        In s (generate_static_slots clock) ->
        List.length (generate_static_slots clock) = 42%nat
        /\ List.length result = 41%nat
        /\ ~ In s result
        /\ (forall t, In t (generate_static_slots clock) -> t <> s -> In t result)).
Proof.
  intros G result.
  pose proof (wrapped_read_returns clock w G) as E.
  split; [now rewrite E|]. split; [|split; [|split]].
  - intros C. erewrite cached_miss; [reflexivity | exact C | exact E].
  - apply filter_sublist.
  - intros s. apply In_generated_minus_confirmed.
  - intros today s Hday Hlo Hhi Hone Hin.
    split; [apply length_generate_static_slots|].
    assert (Hnd : NoDup (generate_static_slots clock))
      by (rewrite (generate_same_day clock today Hday); now apply NoDup_window_slots).
    split; [|split].
    + pose proof (filter_remove_one _ s Hnd Hin) as L.
      rewrite length_generate_static_slots in L.
      unfold result, generated_minus_confirmed. rewrite Hone. lia.
    + intros H. apply In_generated_minus_confirmed in H as [_ H].
      apply H. rewrite Hone. now left.
    + intros t Ht Hts. apply In_generated_minus_confirmed. split; [assumption|].
      rewrite Hone. intros [->|[]]. congruence.
Qed.

Lemma available_slots_generated_minus_confirmed_witness :
  let w := connected_world [one_booking] in
  let clock := fun _ : nat => june_1 in
  globals_missing w = false
  /\ fst (get_available_slots FindReturns clock w)
     = Ret (generated_minus_confirmed clock [one_booking])
  /\ List.length (generated_minus_confirmed clock [one_booking]) = 41%nat
  /\ ~ In "2024-06-01 09:00 AM"%string (generated_minus_confirmed clock [one_booking]).
Proof.
  destruct (available_slots_generated_minus_confirmed
              (fun _ : nat => june_1) (connected_world [one_booking]) eq_refl)
    as (_ & C & _ & _ & One).
  destruct (One 739038 "2024-06-01 09:00 AM"%string
              (fun _ => eq_refl) ltac:(lia) ltac:(unfold MAXORDINAL; lia) eq_refl
              ltac:(vm_compute; left; reflexivity))
    as (_ & L & N & _).
  split; [reflexivity|]. split; [exact (C eq_refl)|]. split; [exact L | exact N].
Defined.

(** C4. When the booking store is unavailable (the connection is missing,
    or the read raises), the availability query returns normally, with the
    full generated list of the seven-day window (42 slots), and leaves the
    store untouched; so does the cached query when it has to compute. *)
Theorem availability_fails_open
    (r : find_reply) (clock : nat -> datetime) (w : world) :
  globals_missing w = true \/ (exists e, r = FindRaises e) ->
  fst (get_available_slots_wrapped r clock w) = Ret (generate_static_slots clock)
  /\ List.length (generate_static_slots clock) = 42%nat
  /\ appointments (snd (get_available_slots_wrapped r clock w)) = appointments w
  /\ (slots_cache w = None ->
      fst (get_available_slots r clock w) = Ret (generate_static_slots clock)).
Proof.
  intros H.
  assert (E : exists w', get_available_slots_wrapped r clock w
                         = (Ret (generate_static_slots clock), w')
                         /\ appointments w' = appointments w).
  { destruct (globals_missing w) eqn:G.
    - rewrite wrapped_no_connection by assumption. eauto.
    - destruct H as [H|[e ->]]; [discriminate H|].
      rewrite wrapped_read_fails by assumption. eauto. }
  destruct E as (w' & E & Ha).
  rewrite E. split; [reflexivity|]. split; [apply length_generate_static_slots|].
  split; [exact Ha|].
  intros C. erewrite cached_miss; [reflexivity | exact C | exact E].
Qed.

Lemma availability_fails_open_witness :
  let w := connected_world [one_booking] in
  let r := FindRaises (PyMongoError "connection refused") in
  let clock := fun _ : nat => june_1 in
  (globals_missing w = true \/ (exists e, r = FindRaises e))
  /\ fst (get_available_slots r clock w) = Ret (generate_static_slots clock)
  /\ In "2024-06-01 09:00 AM"%string (generate_static_slots clock).
Proof.
  assert (H : globals_missing (connected_world [one_booking]) = true
              \/ (exists e, FindRaises (PyMongoError "connection refused") = FindRaises e))
    by (right; eexists; reflexivity).
  destruct (availability_fails_open _ (fun _ : nat => june_1) _ H) as (_ & _ & _ & C).
  split; [exact H|]. split; [exact (C eq_refl)|].
  vm_compute. left. reflexivity.
Defined.

End Availability.

(** ** Persisting a booking *)

Module Persistence.
Import StrFacts.

(** The four ways [save_appointment_to_db] ends. *)
Lemma save_no_connection env details w :
  globals_missing w = true ->
  save_appointment_to_db env details w
  = (Ret None,
     show (StError (TextExn "Error saving appointment: "
                      (ValueError "Database connection not established"))) w).
Proof.
  intros G. unfold save_appointment_to_db, mtry, mbind, get, raise. now rewrite G.
Qed.

Lemma save_connected env details w :
  globals_missing w = false ->
  save_appointment_to_db env details w
  = match appointment_data env details with
    | Raise e => (Ret None, show (StError (TextExn "Error saving appointment: " e)) w)
    | Ret doc =>
        match insert_one_reply env with
        | InsertAcknowledged =>
            (Ret (Some (str_uuid (uuid4 env))),
             set_slots_cache None (set_appointments (appointments w ++ [doc]) w))
        | InsertNoId =>
            (Ret None, show (StError (Text "Failed to save appointment to database")) w)
        | InsertRaises e =>
            (Ret None, show (StError (TextExn "Error saving appointment: " e)) w)
        end
    end.
Proof.
  intros G.
  unfold save_appointment_to_db, appointment_data, mtry, mbind, get, lift. rewrite G.
  repeat match goal with
         | |- context [getitem details ?k] => destruct (getitem details k); cbn [bind]; [|reflexivity]
         | |- context [int ?v] => destruct (int v); cbn [bind]; [|reflexivity]
         end.
  destruct (insert_one_reply env); reflexivity.
Qed.

(** C10. [save_appointment_to_db] returns for every argument and every
    behaviour of the store: it never raises; it returns [None] when the
    connection is missing, when a field is missing or the age is not an
    integer, when the insert raises and when the insert reports no
    identifier; it returns a booking identifier only when the insert
    reported success, and then exactly one document has been added. *)
Theorem save_appointment_to_db_total
    (env : save_env) (details : gmap string value) (w : world) :
  exists (res : option string) (w' : world),
    save_appointment_to_db env details w = (Ret res, w')
    /\ (globals_missing w = true -> res = None)
    /\ (forall e, appointment_data env details = Raise e -> res = None)
    /\ (forall e, insert_one_reply env = InsertRaises e -> res = None)
    /\ (insert_one_reply env = InsertNoId -> res = None)
    /\ (res = None -> appointments w' = appointments w)
    /\ (forall id, res = Some id ->
          globals_missing w = false
          /\ insert_one_reply env = InsertAcknowledged
          /\ id = str_uuid (uuid4 env)
          /\ exists doc, appointment_data env details = Ret doc
                         /\ appointments w' = appointments w ++ [doc]).
Proof.
  destruct (globals_missing w) eqn:G.
  - rewrite save_no_connection by assumption.
    do 2 eexists. split; [reflexivity|]. repeat split; try reflexivity; discriminate.
  - rewrite save_connected by assumption.
    destruct (appointment_data env details) as [doc|e0].
    + destruct (insert_one_reply env) as [| |e1];
        do 2 eexists; (split; [reflexivity|]);
        (split; [discriminate|]); (split; [discriminate|]);
        (split; [try discriminate; reflexivity|]);
        (split; [try discriminate; reflexivity|]);
        (split; [try discriminate; reflexivity|]);
        try discriminate.
      intros id [= <-]. repeat split. eexists. split; reflexivity.
    + do 2 eexists. split; [reflexivity|]. repeat split; try reflexivity; discriminate.
Qed.

End Persistence.

(** ** The booking form *)

Module Workflow.
Import StrFacts Availability Persistence.

Lemma truthy_str_uuid u : truthy_str (str_uuid u) = true.
Proof. unfold str_uuid. cbn [hex_fixed substring]. reflexivity. Qed.

Lemma set_ui_nil w : set_ui (ui w ++ []) w = w.
Proof. destruct w. unfold set_ui. simpl. now rewrite app_nil_r. Qed.

Lemma doctor_loop_spec items i button sel w :
  doctor_loop items i button sel w
  = (Ret (pick_doctor items i button sel),
     set_ui (ui w ++ map (fun d => DoctorCard (fst d)) items) w).
Proof.
  revert i sel w. induction items as [|[k v] items IH]; intros i sel w; simpl.
  - unfold ret. now rewrite set_ui_nil.
  - unfold mbind, emit, modify. rewrite IH. destruct w. unfold set_ui. simpl.
    now rewrite <- app_assoc.
Qed.

Lemma pick_doctor_catalog f :
  form_doctor f = None \/
  exists k d, form_doctor f = Some k /\ truthy_str k = true
              /\ doctors_getitem get_doctors_info k = Ret d.
Proof.
  unfold form_doctor. simpl.
  destruct (Form.doctor_button f 3); [right; do 2 eexists; repeat split; reflexivity|].
  destruct (Form.doctor_button f 2); [right; do 2 eexists; repeat split; reflexivity|].
  destruct (Form.doctor_button f 1); [right; do 2 eexists; repeat split; reflexivity|].
  destruct (Form.doctor_button f 0); [right; do 2 eexists; repeat split; reflexivity|].
  now left.
Qed.

Lemma handle_collect f env r clock w :
  appointment_stage (session w) = Some "collect_info" ->
  handle_appointment_booking f env r clock w
  = if Form.book f then
      if all_fields_filled f (form_doctor f) then
        let details := form_details f (form_doctor f) (form_specialization f) in
        match save_appointment_to_db env details (form_page f w) with
        | (Ret (Some id), w2) =>
            if truthy_str id then
              match get_available_slots r clock (saved_session details w2) with
              | (Ret slots, w3) => (Ret (Some booked_message), confirmed_page f id slots w3)
              | (Raise e, w3) => (Raise e, w3)
              end
            else (Ret None, w2)
        | (Ret None, w2) => (Ret None, w2)
        | (Raise e, w2) => (Raise e, w2)
        end
      else (Ret None, show (StError (Text required_fields_message)) (form_page f w))
    else (Ret None, form_page f w).
Proof.
  intros St. unfold handle_appointment_booking.
  unfold mbind at 1. unfold get at 1. cbv beta iota. rewrite St.
  change (String.eqb "collect_info" "collect_info") with true. cbv iota.
  unfold mbind at 1. unfold emit at 1, modify at 1. cbv beta iota.
  unfold mbind at 1. rewrite doctor_loop_spec. cbv beta iota.
  fold (form_doctor f).
  set (w1 := set_ui (ui (set_ui (ui w ++ [FormHeader]) w) ++ _) _).
  unfold mbind at 1.
  assert (Ew1' : (if truthy_opt (form_doctor f)
                     then st_success (Text ("Selected Doctor: " +:+ opt_str (form_doctor f)))
                     else ret tt) w1 = (Ret tt, form_page f w)).
  { unfold form_page, st_success, emit, modify, ret, show.
    destruct (truthy_opt (form_doctor f)); reflexivity. }
  rewrite Ew1'. cbv beta iota.
  destruct (Form.book f); [|reflexivity].
  destruct (all_fields_filled f (form_doctor f)) eqn:Hall; [|reflexivity].
  assert (Hsel : truthy_opt (form_doctor f) = true).
  { unfold all_fields_filled in Hall. apply andb_true_iff in Hall. tauto. }
  destruct (pick_doctor_catalog f) as [E|(k & d & E & Hk & Hd)];
    [rewrite E in Hsel; discriminate Hsel|].
  unfold mbind at 1, lift at 1. 
  unfold form_specialization. rewrite E. cbn [opt_str]. rewrite Hd. cbv beta iota.
  fold (form_details f (Some k) (specialization d)).
  unfold mbind at 1.
  destruct (save_appointment_to_db env (form_details f (Some k) (specialization d)) (form_page f w))
    as [[[id|]|e] w2]; try reflexivity.
  cbn [truthy_opt]. destruct (truthy_str id); [|reflexivity].
  unfold mbind at 1, modify_session at 1, modify at 1. cbv beta iota.
  unfold mbind at 1, modify_session at 1, modify at 1. cbv beta iota.
  fold (saved_session (form_details f (Some k) (specialization d)) w2).
  unfold mbind at 1.
  destruct (get_available_slots r clock _) as [[slots|e] w3]; [|reflexivity].
  unfold confirmed_page, form_specialization. rewrite E. cbn [opt_str]. rewrite Hd.
  unfold mbind, modify_session, emit, modify, ret, show. reflexivity.
Qed.

Lemma handle_idle f env r clock w :
  appointment_stage (session w) = None ->
  handle_appointment_booking f env r clock w
  = (Ret (Some "Please provide your details for the appointment booking."),
     set_session (set_appointment_details ∅
                    (set_appointment_stage (Some "collect_info") (session w))) w).
Proof.
  intros St. unfold handle_appointment_booking, mbind, get, modify_session, modify, ret.
  rewrite St. destruct w. reflexivity.
Qed.

Lemma handle_other_stage f env r clock w stage :
  appointment_stage (session w) = Some stage -> stage <> "collect_info" ->
  handle_appointment_booking f env r clock w = (Ret None, w).
Proof.
  intros St Hne. unfold handle_appointment_booking, mbind, get, ret. rewrite St.
  apply String.eqb_neq in Hne. now rewrite Hne.
Qed.

(** *** What the form passes to the persistence layer *)

Lemma appointment_data_form env f doctor spec :
  appointment_data env (form_details f doctor spec)
  = Ret {| booking_id := str_uuid (uuid4 env);
           name := strip (Form.name f);
           age := Form.age f;
           gender := strip (Form.gender f);
           phone := strip (Form.phone f);
           email := lower (strip (Form.email f));
           doctor := str (value_of_opt doctor);
           doctor_specialization := spec;
           appointment_slot := str (value_of_opt (Form.preferred_slot f));
           symptoms := strip (Form.symptoms f);
           status := "confirmed";
           created_at := now env;
           updated_at := now env |}.
Proof.
  unfold appointment_data, form_details, getitem.
  repeat (rewrite ?lookup_insert_eq; rewrite ?lookup_insert_ne by discriminate; cbn [bind int str]).
  reflexivity.
Qed.

End Workflow.

(** ** What each operation may change *)

Module Frames.
Import StrFacts Availability Persistence Workflow.

Lemma globals_missing_store w w' :
  store_of w' = store_of w -> globals_missing w' = globals_missing w.
Proof. unfold store_of, globals_missing. intros [= -> -> _ _]. reflexivity. Qed.

Lemma store_of_show e w : store_of (show e w) = store_of w.
Proof. reflexivity. Qed.

Lemma store_of_set_session s w : store_of (set_session s w) = store_of w.
Proof. reflexivity. Qed.

Lemma store_of_form_page f w : store_of (form_page f w) = store_of w.
Proof. unfold form_page. destruct (truthy_opt (form_doctor f)); reflexivity. Qed.

Lemma session_form_page f w : session (form_page f w) = session w.
Proof. unfold form_page. destruct (truthy_opt (form_doctor f)); reflexivity. Qed.

Lemma store_of_confirmed_page f id slots w :
  store_of (confirmed_page f id slots w) = store_of w.
Proof. reflexivity. Qed.

Lemma store_of_saved_session d w : store_of (saved_session d w) = store_of w.
Proof. reflexivity. Qed.

(** [save_appointment_to_db] either leaves the shared state as it is and
    returns [None], or appends one document, empties the cache and returns
    the identifier. *)
Lemma save_frame env details w :
  (fst (save_appointment_to_db env details w) = Ret None
   /\ store_of (snd (save_appointment_to_db env details w)) = store_of w
   /\ session (snd (save_appointment_to_db env details w)) = session w)
  \/ (exists doc,
        appointment_data env details = Ret doc
        /\ globals_missing w = false
        /\ insert_one_reply env = InsertAcknowledged
        /\ save_appointment_to_db env details w
           = (Ret (Some (str_uuid (uuid4 env))),
              set_slots_cache None (set_appointments (appointments w ++ [doc]) w))).
Proof.
  destruct (globals_missing w) eqn:G.
  - left. rewrite save_no_connection by assumption. auto.
  - rewrite save_connected by assumption.
    destruct (appointment_data env details) as [doc|e]; [|left; auto].
    destruct (insert_one_reply env); [right; eauto | left; auto | left; auto].
Qed.

Lemma query_frame r clock w :
  exists slots w',
    get_available_slots r clock w = (Ret slots, w')
    /\ mongo_client w' = mongo_client w /\ db w' = db w
    /\ appointments w' = appointments w
    /\ session w' = session w
    /\ ((slots_cache w = Some slots /\ w' = w)
        \/ (slots_cache w = None /\ slots_cache w' = Some slots
            /\ fst (get_available_slots_wrapped r clock w) = Ret slots)).
Proof.
  destruct (slots_cache w) as [c|] eqn:C.
  - exists c, w. rewrite (cached_hit r clock w c C). repeat split; auto.
  - destruct (wrapped_returns r clock w) as (slots & w' & E & Ha & Hc & Hs & Hm & Hd).
    exists slots, (set_slots_cache (Some slots) w').
    rewrite (cached_miss r clock w slots w' C E). rewrite E.
    repeat split; auto.
Qed.

Lemma wrapped_fst r clock w :
  fst (get_available_slots_wrapped r clock w)
  = Ret (computed_slots r clock (globals_missing w) (appointments w)).
Proof.
  unfold computed_slots. destruct (globals_missing w) eqn:G.
  - now rewrite wrapped_no_connection.
  - destruct r; [now rewrite wrapped_read_returns | now rewrite wrapped_read_fails].
Qed.

Lemma appointment_data_stamped env details doc :
  appointment_data env details = Ret doc ->
  well_stamped doc
  /\ booking_id doc = str_uuid (uuid4 env)
  /\ created_at doc = now env
  /\ (forall v, details !! "slot" = Some v -> appointment_slot doc = str v).
Proof.
  unfold appointment_data, getitem. intros H.
  repeat match type of H with
         | context [details !! ?k] => destruct (details !! k); cbn [bind] in H; [|discriminate H]
         | context [int ?v] => destruct (int v); cbn [bind] in H; [|discriminate H]
         end.
  injection H as <-. unfold well_stamped. simpl.
  split; [split; reflexivity|]. split; [reflexivity|]. split; [reflexivity|].
  intros x [= ->]. reflexivity.
Qed.

(** The form stage of [handle_appointment_booking] ends in one of two
    ways: nothing is booked and the shared state is untouched, or one
    document is appended, the cache is refilled from the updated store and
    the session returns to idle with the fresh slot list. *)
Lemma handle_cases f env r clock w :
  appointment_stage (session w) = Some "collect_info" ->
  let res := handle_appointment_booking f env r clock w in
  (fst res = Ret None /\ store_of (snd res) = store_of w
   /\ appointment_stage (session (snd res)) = Some "collect_info"
   /\ available_slots (session (snd res)) = available_slots (session w))
  \/ (exists doc,
        Form.book f = true
        /\ all_fields_filled f (form_doctor f) = true
        /\ globals_missing w = false
        /\ insert_one_reply env = InsertAcknowledged
        /\ appointment_data env (form_details f (form_doctor f) (form_specialization f)) = Ret doc
        /\ fst res = Ret (Some booked_message)
        /\ mongo_client (snd res) = mongo_client w /\ db (snd res) = db w
        /\ appointments (snd res) = appointments w ++ [doc]
        /\ slots_cache (snd res)
           = Some (computed_slots r clock false (appointments w ++ [doc]))
        /\ available_slots (session (snd res))
           = computed_slots r clock false (appointments w ++ [doc])
        /\ appointment_stage (session (snd res)) = None
        /\ active_button (session (snd res)) = None).
Proof.
  intros St res. unfold res. rewrite (handle_collect f env r clock w St).
  destruct (Form.book f) eqn:Hb.
  2:{ left. cbn [fst snd]. rewrite store_of_form_page, session_form_page. auto. }
  destruct (all_fields_filled f (form_doctor f)) eqn:Hall.
  2:{ left. cbn [fst snd]. unfold show.
      change (store_of (set_ui ?u ?x)) with (store_of x).
      change (session (set_ui ?u ?x)) with (session x).
      rewrite store_of_form_page, session_form_page. auto. }
  cbv zeta.
  set (details := form_details f (form_doctor f) (form_specialization f)).
  destruct (save_frame env details (form_page f w)) as [(E1 & E2 & E3)|(doc & Hd & G & Hr & E)].
  - left. destruct (save_appointment_to_db env details (form_page f w)) as [[[id|]|e] w2];
      cbn [fst snd] in E1, E2, E3; try discriminate E1.
    cbn [fst snd]. rewrite E2, E3, store_of_form_page, session_form_page. auto.
  - right. exists doc. rewrite E. rewrite truthy_str_uuid.
    rewrite (globals_missing_store _ _ (store_of_form_page f w)) in G.
    set (w2 := saved_session details _).
    assert (C2 : slots_cache w2 = None) by reflexivity.
    assert (A2 : appointments w2 = appointments w ++ [doc]).
    { unfold w2. simpl. pose proof (store_of_form_page f w) as S.
      unfold store_of in S. injection S as _ _ -> _. reflexivity. }
    assert (G2 : globals_missing w2 = false).
    { rewrite <- G. unfold w2, globals_missing. simpl.
      pose proof (store_of_form_page f w) as S.
      unfold store_of in S. injection S as -> -> _ _. reflexivity. }
    assert (M2 : mongo_client w2 = mongo_client w /\ db w2 = db w).
    { unfold w2. simpl. pose proof (store_of_form_page f w) as S.
      unfold store_of in S. injection S as -> -> _ _. auto. }
    destruct (query_frame r clock w2) as (slots & w3 & Eq & Hm & Hdb & Ha & Hs & [[C _]|(_ & C3 & Ew)]);
      [congruence|].
    rewrite Eq. rewrite wrapped_fst, G2, A2 in Ew. injection Ew as Ew.
    simpl. destruct M2 as [M2 D2].
    repeat split; try assumption; try congruence.
Qed.

Lemma handle_returns f env r clock w :
  exists res w', handle_appointment_booking f env r clock w = (Ret res, w').
Proof.
  destruct (appointment_stage (session w)) as [stage|] eqn:St.
  - destruct (String.eqb_spec stage "collect_info") as [->|Hne].
    + destruct (handle_cases f env r clock w St) as [(E & _)|(doc & _ & _ & _ & _ & _ & E & _)];
        destruct (handle_appointment_booking f env r clock w) as [o w'];
        simpl in E; subst o; eauto.
    + rewrite (handle_other_stage f env r clock w stage St Hne). eauto.
  - rewrite (handle_idle f env r clock w St). eauto.
Qed.

Lemma store_of_book_button w : store_of (snd (book_button_clicked w)) = store_of w.
Proof.
  unfold book_button_clicked, mbind, get, modify_session, modify.
  destruct (opt_eqb (active_button (session w)) "book"); reflexivity.
Qed.

Lemma show_slots_spec l w :
  show_slots l w = (Ret tt, set_ui (ui w ++ map SlotLine l) w).
Proof.
  revert w. induction l as [|s l IH]; intros w; simpl.
  - unfold ret. now rewrite set_ui_nil.
  - unfold mbind, emit, modify. rewrite IH. destruct w. unfold set_ui. simpl.
    now rewrite <- app_assoc.
Qed.

Lemma store_of_slots_button w : store_of (snd (slots_button_clicked w)) = store_of w.
Proof.
  unfold slots_button_clicked, mbind, get, modify_session, modify.
  destruct (opt_eqb (active_button (session w)) "slots"); cbn [fst snd]; cbv beta iota.
  - reflexivity.
  - cbn [session set_session active_button set_active_button opt_eqb].
    change (String.eqb "slots" "slots") with true. cbv iota.
    cbn [available_slots set_active_button].
    destruct (firstn 5 (available_slots (session w))) as [|s l]; [reflexivity|].
    unfold emit at 1, modify. cbv beta iota. rewrite show_slots_spec. reflexivity.
Qed.

Lemma store_of_chat b input r w : store_of (snd (chat_submit b input r w)) = store_of w.
Proof.
  unfold chat_submit, mbind, get.
  destruct (b && truthy_str input && negb (processing (session w))); [|reflexivity].
  unfold modify_session, modify, chat_append, modify_session, modify. cbv beta iota.
  destruct (booking_keyword input) eqn:K; cbv beta iota; [reflexivity|].
  unfold mtry, mbind, lift, get_gemini_response. rewrite K.
  destruct r; reflexivity.
Qed.

Lemma test_connection_cases env w :
  exists res w',
    test_mongodb_connection env w = (Ret res, w')
    /\ store_of w' = store_of w
    /\ (res = (None, None) \/ exists c d, res = (Some c, Some d))
    /\ (connects env = true -> exists c d, res = (Some c, Some d)).
Proof.
  assert (Fail : forall e,
            exists w', (toast_once (TextExn "Database Connection Failed: " e) ;;
                        ret (None, None)) w
                       = (Ret (@None client, @None database), w')
                       /\ store_of w' = store_of w).
  { intros e. unfold mbind, toast_once, mbind, get.
    destruct (db_connection_shown (session w)); eexists; split; reflexivity. }
  unfold test_mongodb_connection, connects, mtry.
  destruct (truthy_opt (MONGODB_URI env)), (truthy_opt (MONGODB_DB env));
    cbn [negb orb andb].
  2,3,4: (unfold raise at 1; cbv beta iota;
          destruct (Fail (ValueError "MongoDB URI or Database name is missing in .env file"))
            as (w' & -> & S);
          do 2 eexists; split; [reflexivity|]; split; [exact S|];
          split; [now left | discriminate]).
  unfold mbind at 1. unfold get_mongodb_client, mtry.
  destruct (mongo_client_reply env) as [|e]; cbn [ret raise fst snd].
  - unfold ret at 1. cbv beta iota.
    destruct (server_info_error env) as [e|].
    + unfold mbind at 1, raise. cbv beta iota.
      destruct (Fail e) as (w' & -> & S).
      do 2 eexists. split; [reflexivity|]. split; [exact S|].
      split; [now left | discriminate].
    + unfold mbind, ret, toast_once, mbind, get.
      destruct (db_connection_shown (session w));
        (do 2 eexists; split; [reflexivity|]; split; [reflexivity|];
         split; [right; eauto | intros _; eauto]).
  - unfold raise, mbind, st_error, emit, modify, ret. cbv beta iota.
    do 2 eexists. split; [reflexivity|]. split; [reflexivity|].
    split; [now left | discriminate].
Qed.

Lemma init_connection_frame env w :
  appointments (snd (init_connection env w)) = appointments w
  /\ slots_cache (snd (init_connection env w)) = slots_cache w
  /\ (connects env = true -> globals_missing (snd (init_connection env w)) = false).
Proof.
  unfold init_connection, mbind.
  destruct (test_connection_cases env w) as (res & w' & E & S & _ & C).
  rewrite E. unfold modify. cbn [fst snd].
  unfold store_of in S. injection S as _ _ Ha Hc.
  split; [exact Ha|]. split; [exact Hc|].
  intros H. destruct (C H) as (c & d & ->). reflexivity.
Qed.

Lemma booking_section_cases f env r clock w :
  let w' := snd (booking_section f env r clock w) in
  store_of w' = store_of w
  \/ (exists doc,
        globals_missing w = false
        /\ appointment_data env (form_details f (form_doctor f) (form_specialization f)) = Ret doc
        /\ mongo_client w' = mongo_client w /\ db w' = db w
        /\ appointments w' = appointments w ++ [doc]
        /\ slots_cache w' = Some (computed_slots r clock false (appointments w ++ [doc]))).
Proof.
  unfold booking_section, mbind, get. cbv beta iota.
  destruct (appointment_stage (session w)) as [stage|] eqn:St; [|now left].
  destruct (opt_eqb (active_button (session w)) "book"); [|now left].
  destruct (String.eqb_spec stage "collect_info") as [->|Hne].
  - destruct (handle_cases f env r clock w St)
      as [(E & S & _)|(doc & _ & _ & G & _ & Hd & E & Hm & Hdb & Ha & Hc & _)];
      destruct (handle_appointment_booking f env r clock w) as [o w1];
      cbn [fst snd] in *; subst o.
    + left. exact S.
    + right. exists doc. cbn [truthy_opt]. unfold booked_message. cbn [truthy_str].
      unfold emit, modify. cbn [fst snd].
      change (mongo_client (set_ui ?u ?x)) with (mongo_client x).
      change (db (set_ui ?u ?x)) with (db x).
      change (appointments (set_ui ?u ?x)) with (appointments x).
      change (slots_cache (set_ui ?u ?x)) with (slots_cache x).
      auto 10.
  - rewrite (handle_other_stage f env r clock w stage St Hne). now left.
Qed.

End Frames.

(** ** Runs of events *)

Module Runs.
Import StrFacts Availability Persistence Workflow Frames.

Lemma confirmed_slots_app l l' :
  confirmed_slots (l ++ l') = confirmed_slots l ++ confirmed_slots l'.
Proof. unfold confirmed_slots. now rewrite List.filter_app, map_app. Qed.

Lemma confirmed_slots_stamped doc :
  well_stamped doc -> confirmed_slots [doc] = [appointment_slot doc].
Proof.
  intros [H _]. unfold confirmed_slots, is_confirmed. simpl. rewrite H. reflexivity.
Qed.

(** Every step only appends documents, each confirmed and stamped once. *)
Lemma step_grows e w :
  exists added, appointments (step e w) = appointments w ++ added
                /\ Forall well_stamped added.
Proof.
  assert (Same : forall w', appointments w' = appointments w ->
            exists added, appointments w' = appointments w ++ added
                          /\ Forall well_stamped added).
  { intros w' H. exists []. rewrite app_nil_r. auto. }
  assert (Store : forall w', store_of w' = store_of w -> appointments w' = appointments w).
  { intros w' H. unfold store_of in H. now injection H. }
  destruct e as [env| | |b i r|f env r clock|env d|r clock|]; cbn [step].
  - apply Same. apply init_connection_frame.
  - apply Same, Store, store_of_book_button.
  - apply Same, Store, store_of_slots_button.
  - apply Same, Store, store_of_chat.
  - destruct (booking_section_cases f env r clock w) as [S|(doc & _ & Hd & _ & _ & Ha & _)].
    + apply Same, Store, S.
    + exists [doc]. split; [exact Ha|]. constructor; [|constructor].
      apply (appointment_data_stamped _ _ _ Hd).
  - destruct (save_frame env d w) as [(_ & S & _)|(doc & Hd & _ & _ & E)].
    + apply Same, Store, S.
    + rewrite E. exists [doc]. split; [reflexivity|]. constructor; [|constructor].
      apply (appointment_data_stamped _ _ _ Hd).
  - destruct (query_frame r clock w) as (slots & w' & E & _ & _ & Ha & _).
    rewrite E. apply Same. exact Ha.
  - apply Same. reflexivity.
Qed.

Lemma run_grows es w :
  exists added, appointments (run es w) = appointments w ++ added
                /\ Forall well_stamped added.
Proof.
  revert w. induction es as [|e es IH]; intros w.
  - exists []. simpl. rewrite app_nil_r. auto.
  - cbn [run fold_left]. destruct (step_grows e w) as (a1 & E1 & F1).
    destruct (IH (step e w)) as (a2 & E2 & F2).
    exists (a1 ++ a2). unfold run in E2. rewrite E2, E1, <- app_assoc.
    split; [reflexivity|]. apply Forall_app; auto.
Qed.

Lemma taken_store S w w' : store_of w' = store_of w -> taken S w -> taken S w'.
Proof.
  unfold store_of, taken, globals_missing. intros [= -> -> -> ->]. auto.
Qed.

Lemma not_in_minus_confirmed S clock store :
  In S (confirmed_slots store) -> ~ In S (generated_minus_confirmed clock store).
Proof. intros H N. apply In_generated_minus_confirmed in N. tauto. Qed.

(** While the store answers, a slot that is taken stays taken. *)
Lemma step_taken S e w :
  store_answers e = true -> taken S w -> taken S (step e w).
Proof.
  intros Ans (G & Hin & Hc).
  destruct e as [env| | |b i r|f env r clock|env d|r clock|]; cbn [step store_answers] in *.
  - destruct (init_connection_frame env w) as (Ha & Hc' & Hg).
    split; [now apply Hg|]. rewrite Ha, Hc'. auto.
  - apply (taken_store S w); [apply store_of_book_button | split; auto].
  - apply (taken_store S w); [apply store_of_slots_button | split; auto].
  - apply (taken_store S w); [apply store_of_chat | split; auto].
  - destruct r; [|discriminate Ans].
    destruct (booking_section_cases f env FindReturns clock w)
      as [St|(doc & _ & Hd & Hm & Hdb & Ha & Hca)].
    + apply (taken_store S w); [exact St | split; auto].
    + split; [|split].
      * unfold globals_missing in *. now rewrite Hm, Hdb.
      * rewrite Ha, confirmed_slots_app. apply in_or_app. now left.
      * intros cached. rewrite Hca. intros [= <-]. cbn [computed_slots].
        apply not_in_minus_confirmed. rewrite confirmed_slots_app.
        apply in_or_app. now left.
  - destruct (save_frame env d w) as [(_ & St & _)|(doc & _ & _ & _ & E)].
    + apply (taken_store S w); [exact St | split; auto].
    + rewrite E. cbn [snd]. split; [exact G|]. split.
      * cbn [appointments set_slots_cache set_appointments].
        rewrite confirmed_slots_app. apply in_or_app. now left.
      * intros cached. cbn [slots_cache set_slots_cache]. discriminate.
  - destruct r; [|discriminate Ans].
    destruct (query_frame FindReturns clock w)
      as (slots & w' & E & Hm & Hdb & Ha & _ & [[C ->]|(C & C' & Ew)]); rewrite E; cbn [snd].
    + split; auto.
    + split; [|split].
      * unfold globals_missing in *. now rewrite Hm, Hdb.
      * now rewrite Ha.
      * intros cached. rewrite C'. intros [= <-].
        rewrite wrapped_fst, G in Ew. injection Ew as <-. cbn [computed_slots].
        now apply not_in_minus_confirmed.
  - split; [exact G|]. split; [exact Hin|]. discriminate.
Qed.

Lemma run_taken S es w :
  Forall (fun e => store_answers e = true) es -> taken S w -> taken S (run es w).
Proof.
  revert w. induction es as [|e es IH]; intros w F T; [exact T|].
  inversion F as [|? ? He Hes]; subst. cbn [run fold_left].
  apply IH; [exact Hes|]. now apply step_taken.
Qed.

(** A query answered by the store never shows a taken slot. *)
Lemma query_excludes_taken S clock w slots :
  taken S w ->
  fst (get_available_slots FindReturns clock w) = Ret slots -> ~ In S slots.
Proof.
  intros (G & Hin & Hc) E.
  destruct (query_frame FindReturns clock w)
    as (slots' & w' & Eq & _ & _ & _ & _ & [[C _]|(C & _ & Ew)]);
    rewrite Eq in E; injection E as ->.
  - now apply Hc.
  - rewrite wrapped_fst, G in Ew. injection Ew as <-.
    now apply not_in_minus_confirmed.
Qed.

End Runs.

(** ** Bookings and slots *)

Module Booking.
Import StrFacts Availability Persistence Workflow Frames Runs.

Lemma save_all_acknowledged envs details w doc :
  globals_missing w = false ->
  Forall acknowledged envs ->
  (forall env, appointment_data env details = Ret (doc env)) ->
  save_all envs details w
  = (map (fun env => Ret (Some (str_uuid (uuid4 env)))) envs,
     match envs with
     | [] => w
     | _ => set_slots_cache None
              (set_appointments (appointments w ++ map doc envs) w)
     end).
Proof.
  intros G F Hd. revert w G. induction F as [|env envs Hack F IH]; intros w G.
  - reflexivity.
  - cbn [save_all]. rewrite save_connected by assumption.
    rewrite Hd, Hack. rewrite IH by exact G. cbn [map]. f_equal.
    destruct envs; cbn [map appointments set_slots_cache set_appointments].
    + reflexivity.
    + unfold set_slots_cache, set_appointments. cbn. now rewrite <- app_assoc.
Qed.

Lemma appointment_data_slot env env' details doc doc' :
  appointment_data env details = Ret doc ->
  appointment_data env' details = Ret doc' ->
  appointment_slot doc' = appointment_slot doc /\ status doc' = "confirmed".
Proof.
  unfold appointment_data, getitem. intros H H'.
  repeat match type of H with
         | context [details !! ?k] =>
             destruct (details !! k); cbn [bind] in H, H'; [|discriminate H]
         | context [int ?v] => destruct (int v); cbn [bind] in H, H'; [|discriminate H]
         end.
  injection H as <-. injection H' as <-. split; reflexivity.
Qed.

(** C1, amended. [save_appointment_to_db] inserts without looking at the
    bookings already stored: with the store connected and the insert
    acknowledged, every call persists one more confirmed document and
    returns its identifier, so after N calls for one slot all N have
    succeeded and N more confirmed bookings hold that slot. The slots of
    confirmed bookings stay pairwise different exactly when the slot of the
    new booking was not confirmed before. *)
Theorem save_inserts_unconditionally
    (env : save_env) (details : gmap string value) (w : world) (doc : appointment) :
  globals_missing w = false ->
  acknowledged env ->
  appointment_data env details = Ret doc ->
  save_appointment_to_db env details w
  = (Ret (Some (str_uuid (uuid4 env))),
     set_slots_cache None (set_appointments (appointments w ++ [doc]) w))
  /\ status doc = "confirmed"
  /\ (slot_unique (appointments w) ->
      (slot_unique (appointments w ++ [doc])
       <-> ~ In (appointment_slot doc) (confirmed_slots (appointments w))))
  /\ (forall envs, Forall acknowledged envs ->
        fst (save_all envs details w)
        = map (fun env' => Ret (Some (str_uuid (uuid4 env')))) envs
        /\ confirmed_slots (appointments (snd (save_all envs details w)))
           = confirmed_slots (appointments w)
             ++ repeat (appointment_slot doc) (List.length envs)).
Proof.
  intros G Hack Hd.
  pose proof (appointment_data_stamped _ _ _ Hd) as (St & _).
  split; [|split; [|split]].
  - rewrite save_connected by assumption. now rewrite Hd, Hack.
  - apply St.
  - intros U. unfold slot_unique.
    rewrite confirmed_slots_app, (confirmed_slots_stamped doc St).
    rewrite NoDup_app. split.
    + intros (_ & H & _) Hin. apply (H (appointment_slot doc)).
      * now apply list_elem_of_In.
      * apply list_elem_of_In. now left.
    + intros Hn. split; [exact U|]. split.
      * intros x Hx Hx'. apply list_elem_of_In in Hx, Hx'.
        destruct Hx' as [<-|[]]. contradiction.
      * apply NoDup_cons. split; [|constructor]. rewrite list_elem_of_In. intros [].
  - intros envs F.
    set (docs := fun env' => match appointment_data env' details with
                             | Ret d => d
                             | Raise _ => doc
                             end).
    assert (Hdocs : forall env', appointment_data env' details = Ret (docs env')).
    { intros env'. unfold docs.
      destruct (appointment_data env' details) as [d|e] eqn:E; [reflexivity|].
      exfalso. revert E Hd. unfold appointment_data, getitem.
      repeat match goal with
             | |- context [details !! ?k] => destruct (details !! k); cbn [bind]; [|discriminate]
             | |- context [int ?v] => destruct (int v); cbn [bind]; [|discriminate]
             end.
      discriminate. }
    rewrite (save_all_acknowledged envs details w docs G F Hdocs). cbn [fst snd].
    split; [reflexivity|].
    assert (Hslots : confirmed_slots (map docs envs)
                     = repeat (appointment_slot doc) (List.length envs)).
    { clear F. induction envs as [|e envs IH]; [reflexivity|].
      change (map docs (e :: envs)) with ([docs e] ++ map docs envs).
      rewrite confirmed_slots_app, IH.
      destruct (appointment_data_slot env e details doc (docs e) Hd (Hdocs e)) as [Es Ec].
      unfold confirmed_slots at 1, is_confirmed. cbn [List.filter map]. rewrite Ec.
      cbn. now rewrite Es. }
    destruct envs as [|e envs].
    + cbn. now rewrite app_nil_r.
    + cbn [appointments set_slots_cache set_appointments].
      now rewrite confirmed_slots_app, Hslots.
Qed.

Lemma save_inserts_unconditionally_witness :
  let w := connected_world [one_booking] in
  exists doc,
    appointment_data env_1 ann_details = Ret doc
    /\ appointment_slot doc = "2024-06-01 09:00 AM"%string
    /\ fst (save_appointment_to_db env_1 ann_details w)
       = Ret (Some (str_uuid 1))
    /\ fst (save_all [env_1; env_2] ann_details w)
       = [Ret (Some (str_uuid 1)); Ret (Some (str_uuid 2))].
Proof.
  eexists. split; [apply appointment_data_form|]. split; [reflexivity|].
  destruct (save_inserts_unconditionally env_1 ann_details
              (connected_world [one_booking]) _ eq_refl eq_refl
              (appointment_data_form env_1 ann_form _ _))
    as (E & _ & _ & N).
  split; [now rewrite E|].
  exact (proj1 (N [env_1; env_2] ltac:(repeat constructor))).
Defined.

(** C1 fails on the code: two calls for the slot 2024-06-01 09:00 AM on an
    empty store both return a booking identifier, and the store then holds
    two confirmed bookings with that slot. *)
Lemma double_booking_accepted :
  let w0 := connected_world [] in
  let '(results, w2) := save_all [env_1; env_2] ann_details w0 in
  results = [Ret (Some (str_uuid 1)); Ret (Some (str_uuid 2))]
  /\ confirmed_slots (appointments w2)
     = ["2024-06-01 09:00 AM"; "2024-06-01 09:00 AM"]%string
  /\ ~ slot_unique (appointments w2).
Proof.
  cbv zeta.
  rewrite (save_all_acknowledged [env_1; env_2] ann_details (connected_world [])
             (fun env => _) eq_refl ltac:(repeat constructor)
             (fun env => appointment_data_form env ann_form _ _)).
  split; [reflexivity|]. split; [reflexivity|].
  unfold slot_unique. intros H. apply NoDup_cons in H as [H _].
  apply H. apply list_elem_of_In. now left.
Qed.

(** C9. A booking persisted by a successful call has status confirmed,
    [created_at] and [updated_at] both equal to the one clock reading of
    the call, and the string of the UUID drawn in the call as
    [booking_id], which is also the value returned. Whatever the
    application does, it only ever appends documents to the collection, and
    each of them has status confirmed. *)
Theorem persisted_booking_is_confirmed
    (env : save_env) (details : gmap string value) (w w' : world) (id : string) :
  save_appointment_to_db env details w = (Ret (Some id), w') ->
  (exists doc,
     appointments w' = appointments w ++ [doc]
     /\ status doc = "confirmed"
     /\ created_at doc = now env /\ updated_at doc = now env
     /\ created_at doc = updated_at doc
     /\ booking_id doc = str_uuid (uuid4 env)
     /\ id = booking_id doc)
  /\ (forall es w0,
        exists added,
          appointments (run es w0) = appointments w0 ++ added
          /\ Forall (fun doc => status doc = "confirmed") added).
Proof.
  intros E. split.
  - destruct (save_frame env details w) as [(E1 & _)|(doc & Hd & _ & _ & E2)].
    + rewrite E in E1. discriminate E1.
    + rewrite E in E2. injection E2 as -> ->. exists doc.
      destruct (appointment_data_stamped _ _ _ Hd) as ([Hs Ht] & Hb & Hc & _).
      cbn [appointments set_slots_cache set_appointments].
      repeat split; try assumption; congruence.
  - intros es w0. destruct (run_grows es w0) as (added & Ha & F).
    exists added. split; [exact Ha|].
    eapply Forall_impl; [exact F|]. intros doc [H _]. exact H.
Qed.

Lemma persisted_booking_is_confirmed_witness :
  exists w' doc,
    save_appointment_to_db env_1 ann_details (connected_world [])
    = (Ret (Some (str_uuid 1)), w')
    /\ appointments w' = [doc]
    /\ status doc = "confirmed"%string
    /\ created_at doc = june_1 /\ updated_at doc = june_1
    /\ booking_id doc = "00000000-0000-0000-0000-000000000001"%string.
Proof.
  assert (E : save_appointment_to_db env_1 ann_details (connected_world [])
              = (Ret (Some (str_uuid 1)),
                 snd (save_appointment_to_db env_1 ann_details (connected_world []))))
    by reflexivity.
  destruct (persisted_booking_is_confirmed _ _ _ _ _ E)
    as ((doc & Ha & Hs & Hc & Hu & _ & Hb & _) & _).
  eexists. exists doc. split; [exact E|].
  split; [exact Ha|]. split; [exact Hs|]. split; [exact Hc|]. split; [exact Hu|].
  rewrite Hb. reflexivity.
Defined.

(** C3, amended. A successful call of [save_appointment_to_db] for slot
    [S] leaves the availability cache empty, and for as long as the store
    answers every later connection test and read of the process, no
    availability query includes [S]. *)
Theorem booked_slot_not_offered
    (env : save_env) (details : gmap string value) (w w' : world)
    (id : string) (v : value) :
  save_appointment_to_db env details w = (Ret (Some id), w') ->
  details !! "slot" = Some v ->
  slots_cache w' = None
  /\ (forall es clock slots,
        Forall (fun e => store_answers e = true) es ->
        fst (get_available_slots FindReturns clock (run es w')) = Ret slots ->
        ~ In (str v) slots).
Proof.
  intros E Hv.
  destruct (save_frame env details w) as [(E1 & _)|(doc & Hd & G & _ & E2)].
  { rewrite E in E1. discriminate E1. }
  rewrite E in E2. injection E2 as -> ->.
  split; [reflexivity|].
  assert (T : taken (str v)
                (set_slots_cache None (set_appointments (appointments w ++ [doc]) w))).
  { destruct (appointment_data_stamped _ _ _ Hd) as (St & _ & _ & Hslot).
    split; [exact G|]. split.
    - cbn [appointments set_slots_cache set_appointments].
      rewrite confirmed_slots_app, (confirmed_slots_stamped doc St), (Hslot v Hv).
      apply in_or_app. right. now left.
    - cbn [slots_cache set_slots_cache]. discriminate. }
  intros es clock slots F Eq.
  eapply query_excludes_taken; [|exact Eq]. now apply run_taken.
Qed.

Lemma booked_slot_not_offered_witness :
  let w' := snd (save_appointment_to_db env_1 ann_details (connected_world [])) in
  let clock := fun _ : nat => june_1 in
  exists slots,
    fst (get_available_slots FindReturns clock
           (run [EvExpire; EvQuery FindReturns clock; EvSave env_2 ann_details] w'))
    = Ret slots
    /\ ~ In "2024-06-01 09:00 AM"%string slots.
Proof.
  cbv zeta.
  destruct (query_frame FindReturns (fun _ : nat => june_1)
              (run [EvExpire; EvQuery FindReturns (fun _ : nat => june_1);
                    EvSave env_2 ann_details]
                 (snd (save_appointment_to_db env_1 ann_details (connected_world [])))))
    as (slots & w2 & Eq & _).
  exists slots. rewrite Eq. split; [reflexivity|].
  assert (E : save_appointment_to_db env_1 ann_details (connected_world [])
              = (Ret (Some (str_uuid 1)),
                 snd (save_appointment_to_db env_1 ann_details (connected_world []))))
    by reflexivity.
  refine (proj2 (booked_slot_not_offered env_1 ann_details _ _ _
                   (VStr "2024-06-01 09:00 AM") E eq_refl)
            [EvExpire; EvQuery FindReturns (fun _ : nat => june_1);
             EvSave env_2 ann_details]
            (fun _ : nat => june_1) slots _ _).
  - repeat constructor.
  - now rewrite Eq.
Defined.

(** C3 fails on the code: after a successful save for 2024-06-01 09:00 AM
    the cache is empty, yet the next query, whose read of the store
    raises, returns that slot, and so does a later query made while the
    store is connected and answers, because the fallback list was cached. *)
Lemma booked_slot_offered_after_failed_read :
  let clock := fun _ : nat => june_1 in
  let saved := save_appointment_to_db env_1 ann_details (connected_world []) in
  let first := get_available_slots (FindRaises (PyMongoError "timed out")) clock
                 (snd saved) in
  let later := get_available_slots FindReturns clock (snd first) in
  fst saved = Ret (Some (str_uuid 1))
  /\ ann_details !! "slot" = Some (VStr "2024-06-01 09:00 AM")
  /\ slots_cache (snd saved) = None
  /\ In "2024-06-01 09:00 AM"%string (confirmed_slots (appointments (snd saved)))
  /\ (exists slots, fst first = Ret slots /\ In "2024-06-01 09:00 AM"%string slots)
  /\ globals_missing (snd first) = false
  /\ (exists slots, fst later = Ret slots /\ In "2024-06-01 09:00 AM"%string slots).
Proof.
  cbv zeta. split; [reflexivity|]. split; [reflexivity|]. split; [reflexivity|].
  split; [vm_compute; left; reflexivity|].
  split; [eexists; split; [reflexivity | vm_compute; left; reflexivity]|].
  split; [reflexivity|].
  eexists. split; [reflexivity | vm_compute; left; reflexivity].
Qed.

End Booking.

(** ** Submitting the form *)

Module Submit.
Import StrFacts Availability Persistence Workflow Frames Runs.

Lemma ui_form_page f w : ui (form_page f w) = ui w ++ form_events f.
Proof.
  unfold form_page, form_events, show.
  destruct (truthy_opt (form_doctor f)); cbn [ui set_ui];
    rewrite <- ?app_assoc; cbn [app]; now rewrite ?app_nil_r.
Qed.

Lemma shown_app w w' evs : ui w' = ui w ++ evs -> shown w w' = evs.
Proof. intros H. unfold shown. rewrite H. apply drop_app_length. Qed.

Lemma shown_error f t w :
  shown w (show (StError t) (form_page f w)) = form_events f ++ [StError t].
Proof.
  apply shown_app. unfold show. cbn [ui set_ui]. now rewrite ui_form_page, <- app_assoc.
Qed.

Lemma missing_fields_filled f :
  missing_fields f = [] <-> all_fields_filled f (form_doctor f) = true.
Proof.
  unfold missing_fields, all_fields_filled.
  destruct (truthy_str (Form.name f)), (Form.age f =? 0),
    (String.eqb (Form.gender f) "Select"), (truthy_str (Form.phone f)),
    (truthy_str (Form.email f)), (truthy_opt (form_doctor f)),
    (truthy_opt (Form.preferred_slot f)), (truthy_str (Form.symptoms f));
    cbn; split; congruence.
Qed.

Lemma trimmed_strip s : trimmed (strip s).
Proof. split; intros c; [apply head_strip | apply last_strip]. Qed.

Lemma trimmed_lower_strip s : trimmed (lower (strip s)).
Proof. rewrite <- strip_lower. apply trimmed_strip. Qed.

(** A submission that books nothing ends with an error on the page and
    the shared state untouched. *)
Lemma failed_submit f env r clock w :
  submitting f w ->
  fst (handle_appointment_booking f env r clock w) = Ret None ->
  exists t,
    handle_appointment_booking f env r clock w
    = (Ret None, show (StError t) (form_page f w)).
Proof.
  intros [St Hb] E. rewrite (handle_collect f env r clock w St) in E |- *.
  rewrite Hb in E |- *.
  destruct (all_fields_filled f (form_doctor f)); [|eauto].
  cbv zeta in E |- *.
  destruct (globals_missing (form_page f w)) eqn:G.
  - rewrite save_no_connection by assumption. eauto.
  - rewrite save_connected in E |- * by assumption.
    rewrite appointment_data_form in E |- *.
    destruct (insert_one_reply env); eauto.
    rewrite truthy_str_uuid in E.
    destruct (get_available_slots r clock _) as [[slots|e] w3]; discriminate E.
Qed.

(** C5. When the booking store is unavailable or the insert fails, a
    submission confirms nothing: it returns no booking, an error is shown
    to the user, no document is persisted, the cache and the stage of the
    form stay as they were; and [save_appointment_to_db] itself returns
    [None] with the collection unchanged. *)
Theorem submit_fails_closed
    (f : Form.t) (env : save_env) (r : find_reply) (clock : nat -> datetime)
    (w : world) :
  submitting f w ->
  globals_missing w = true \/ insert_one_reply env <> InsertAcknowledged ->
  let res := handle_appointment_booking f env r clock w in
  fst res = Ret None
  /\ (exists t, In (StError t) (shown w (snd res)))
  /\ appointments (snd res) = appointments w
  /\ slots_cache (snd res) = slots_cache w
  /\ appointment_stage (session (snd res)) = Some "collect_info"
  /\ (forall details,
        fst (save_appointment_to_db env details w) = Ret None
        /\ appointments (snd (save_appointment_to_db env details w)) = appointments w).
Proof.
  intros Sub Down res.
  assert (Hres : fst res = Ret None).
  { destruct Sub as [St _].
    destruct (handle_cases f env r clock w St) as [(E & _)|(doc & _ & _ & G & Hack & _)];
      [exact E|].
    destruct Down as [D|D]; congruence. }
  destruct (failed_submit f env r clock w Sub Hres) as (t & E).
  unfold res in *. rewrite E. cbn [fst snd].
  split; [reflexivity|]. split.
  { exists t. rewrite shown_error. apply in_or_app. right. now left. }
  pose proof (store_of_form_page f w) as S. unfold store_of in S.
  injection S as _ _ Ha Hc.
  split; [exact Ha|]. split; [exact Hc|].
  split; [cbn [session show set_ui]; rewrite session_form_page; apply Sub|].
  intros details.
  destruct (save_frame env details w) as [(E1 & S1 & _)|(doc & _ & G & Hack & _)].
  - split; [exact E1|]. unfold store_of in S1. now injection S1.
  - destruct Down as [D|D]; congruence.
Qed.

Lemma submit_fails_closed_witness :
  let w := form_world [one_booking] in
  let res := handle_appointment_booking ann_form env_down FindReturns
               (fun _ : nat => june_1) w in
  submitting ann_form w
  /\ fst res = Ret None
  /\ appointments (snd res) = [one_booking]
  /\ In (StError (TextExn "Error saving appointment: " (PyMongoError "timed out")))
        (shown w (snd res)).
Proof.
  assert (Sub : submitting ann_form (form_world [one_booking])) by (split; reflexivity).
  destruct (submit_fails_closed ann_form env_down FindReturns (fun _ : nat => june_1)
              (form_world [one_booking]) Sub ltac:(right; discriminate))
    as (E & _ & Ha & _).
  split; [exact Sub|]. split; [exact E|]. split; [exact Ha|].
  vm_compute. do 6 right. left. reflexivity.
Defined.

(** C6, amended. A submission with one or more required fields missing
    or empty books nothing and writes nothing: it returns [None], shows the
    one fixed message "Please fill in all the required fields.", which
    names none of the fields, leaves the shared state untouched and does
    not depend on what the store would have answered. *)
Theorem missing_field_rejected
    (f : Form.t) (env : save_env) (r : find_reply) (clock : nat -> datetime)
    (w : world) :
  submitting f w ->
  missing_fields f <> [] ->
  let res := handle_appointment_booking f env r clock w in
  fst res = Ret None
  /\ shown w (snd res)
     = form_events f ++ [StError (Text "Please fill in all the required fields.")]
  /\ Forall (fun field =>
               names_field (Text "Please fill in all the required fields.") field = false)
            ["name"; "age"; "gender"; "phone"; "email"; "doctor"; "slot"; "symptoms"]
  /\ store_of (snd res) = store_of w
  /\ (forall env' r' clock', handle_appointment_booking f env' r' clock' w = res).
Proof.
  intros [St Hb] Hm res.
  assert (Hall : all_fields_filled f (form_doctor f) = false).
  { destruct (all_fields_filled f (form_doctor f)) eqn:E; [|reflexivity].
    apply missing_fields_filled in E. contradiction. }
  assert (E : forall env' r' clock',
            handle_appointment_booking f env' r' clock' w
            = (Ret None, show (StError (Text required_fields_message)) (form_page f w))).
  { intros env' r' clock'. rewrite (handle_collect f env' r' clock' w St).
    now rewrite Hb, Hall. }
  unfold res. rewrite (E env r clock). cbn [fst snd].
  split; [reflexivity|]. split; [apply shown_error|].
  split; [repeat constructor|].
  split; [apply (store_of_form_page f w)|].
  intros env' r' clock'. apply E.
Qed.

Lemma missing_field_rejected_witness :
  let w := form_world [] in
  let res := handle_appointment_booking no_email_form env_1 FindReturns
               (fun _ : nat => june_1) w in
  submitting no_email_form w
  /\ missing_fields no_email_form = ["email"%string]
  /\ fst res = Ret None
  /\ appointments (snd res) = [].
Proof.
  assert (Sub : submitting no_email_form (form_world [])) by (split; reflexivity).
  destruct (missing_field_rejected no_email_form env_1 FindReturns
              (fun _ : nat => june_1) (form_world []) Sub ltac:(discriminate))
    as (E & _ & _ & S & _).
  split; [exact Sub|]. split; [reflexivity|]. split; [exact E|].
  exact (f_equal (fun p => snd (fst p)) S).
Defined.

(** C6 fails on the code: for a draft whose only missing field is the
    email, no error shown by the submission names that field. *)
Lemma missing_field_not_named :
  let w := form_world [] in
  let res := handle_appointment_booking no_email_form env_1 FindReturns
               (fun _ : nat => june_1) w in
  missing_fields no_email_form = ["email"%string]
  /\ fst res = Ret None
  /\ ~ (exists t, In (StError t) (shown w (snd res))
                  /\ names_field t "email" = true).
Proof.
  cbv zeta. split; [reflexivity|]. split; [reflexivity|].
  intros (t & Hin & Hn). vm_compute in Hin.
  destruct Hin as [H|[H|[H|[H|[H|[H|[H|[]]]]]]]]; try discriminate H.
  injection H as <-. vm_compute in Hn. discriminate Hn.
Qed.

(** C8. The booking persisted by a successful submission is normalised:
    name, phone and symptoms are the entered strings stripped of
    surrounding white space, the email is stripped and lower-cased, and the
    age is the integer the age widget returned, which lies between 1 and
    120 as the widget's bounds require. *)
Theorem persisted_booking_normalized
    (f : Form.t) (env : save_env) (r : find_reply) (clock : nat -> datetime)
    (w : world) :
  submitting f w ->
  1 <= Form.age f <= 120 ->
  fst (handle_appointment_booking f env r clock w) = Ret (Some booked_message) ->
  exists doc,
    appointments (snd (handle_appointment_booking f env r clock w))
    = appointments w ++ [doc]
    /\ name doc = strip (Form.name f) /\ trimmed (name doc)
    /\ phone doc = strip (Form.phone f) /\ trimmed (phone doc)
    /\ symptoms doc = strip (Form.symptoms f) /\ trimmed (symptoms doc)
    /\ email doc = lower (strip (Form.email f))
    /\ trimmed (email doc) /\ no_upper (email doc) = true
    /\ age doc = Form.age f /\ 1 <= age doc <= 120.
Proof.
  intros [St Hb] Hage E.
  destruct (handle_cases f env r clock w St)
    as [(E' & _)|(doc & _ & _ & _ & _ & Hd & _ & _ & _ & Ha & _)].
  { rewrite E in E'. discriminate E'. }
  rewrite appointment_data_form in Hd. injection Hd as <-.
  eexists. split; [exact Ha|]. cbn [name phone symptoms email age].
  repeat split; try reflexivity; try apply trimmed_strip; try apply trimmed_lower_strip;
    try apply no_upper_lower; lia.
Qed.

Lemma persisted_booking_normalized_witness :
  let w := form_world [] in
  let res := handle_appointment_booking ann_form env_1 FindReturns
               (fun _ : nat => june_1) w in
  submitting ann_form w
  /\ 1 <= Form.age ann_form <= 120
  /\ fst res = Ret (Some booked_message)
  /\ exists doc,
       appointments (snd res) = [doc]
       /\ name doc = "Ann"%string /\ email doc = "ann@example.org"%string
       /\ symptoms doc = "cough"%string /\ age doc = 30.
Proof.
  assert (Sub : submitting ann_form (form_world [])) by (split; reflexivity).
  assert (Hage : 1 <= Form.age ann_form <= 120) by (simpl; lia).
  destruct (persisted_booking_normalized ann_form env_1 FindReturns
              (fun _ : nat => june_1) (form_world []) Sub Hage eq_refl)
    as (doc & Ha & Hn & _ & _ & _ & Hs & _ & He & _ & _ & Hg & _).
  split; [exact Sub|]. split; [exact Hage|]. split; [reflexivity|].
  exists doc. split; [exact Ha|].
  split; [rewrite Hn; reflexivity|]. split; [rewrite He; reflexivity|].
  split; [rewrite Hs; reflexivity | rewrite Hg; reflexivity].
Defined.

End Submit.

(** ** Further properties of the slot list and its cache *)

Module Slots.
Import DateFacts DateStrings SlotFacts Availability Persistence Frames Runs.

Lemma length_append (a b : string) :
  String.length (a +:+ b) = (String.length a + String.length b)%nat.
Proof. induction a as [|c a IH]; simpl; [reflexivity | now rewrite IH]. Qed.

Lemma In_generate clock s :
  In s (generate_static_slots clock)
  <-> exists (i : nat) (t : string),
        (i < 7)%nat /\ In t daily_templates
        /\ s = slot_date clock i +:+ " " +:+ t.
Proof.
  rewrite generate_static_slots_flat_map, in_flat_map. split.
  - intros (i & Hi & Hs). apply in_seq in Hi. rewrite day_slots_templates in Hs.
    apply in_map_iff in Hs as (t & <- & Ht). exists i, t. split; [lia|]. auto.
  - intros (i & t & Hi & Ht & ->). exists i. split; [apply in_seq; lia|].
    rewrite day_slots_templates. apply in_map_iff. eauto.
Qed.

(** Every generated slot is a 19-character string: a ten-character date, a
    space and one of the six templates; when the clock stays on one day of
    the range of Python dates, the 42 slots are pairwise different. *)
Theorem generated_slots_well_formed (clock : nat -> datetime) (today : Z) :
  same_day clock today -> 1 <= today -> today + 6 <= MAXORDINAL ->
  NoDup (generate_static_slots clock)
  /\ (forall s, In s (generate_static_slots clock) ->
        String.length s = 19%nat
        /\ exists (i : nat) (t : string),
             (i < 7)%nat /\ In t daily_templates
             /\ s = ymd_string (today + Z.of_nat i) +:+ " " +:+ t).
Proof.
  intros Hday Hlo Hhi. split.
  - rewrite (generate_same_day clock today Hday). now apply NoDup_window_slots.
  - intros s Hs. apply In_generate in Hs as (i & t & Hi & Ht & ->).
    rewrite (slot_date_same_day clock today i Hday). split; [|eauto].
    rewrite length_append, length_ymd_string.
    unfold daily_templates in Ht. simpl in Ht.
    repeat (destruct Ht as [<-|Ht]; [reflexivity|]). destruct Ht.
Qed.

Lemma generated_slots_well_formed_witness :
  let clock := fun _ : nat => june_1 in
  same_day clock 739038
  /\ NoDup (generate_static_slots clock)
  /\ String.length "2024-06-07 04:00 PM" = 19%nat.
Proof.
  assert (H : same_day (fun _ : nat => june_1) 739038) by (intros i; reflexivity).
  destruct (generated_slots_well_formed (fun _ : nat => june_1) 739038 H
              ltac:(lia) ltac:(unfold MAXORDINAL; lia)) as (N & L).
  split; [exact H|]. split; [exact N|].
  apply (L "2024-06-07 04:00 PM"%string). vm_compute. do 41 right. left. reflexivity.
Defined.

(** What a query computes during an outage is stored in the cache like any
    other result: until the entry is cleared or expires, every later
    query, whatever the store then answers, returns the full generated
    list again. *)
Theorem outage_result_is_cached
    (r r' : find_reply) (clock clock' : nat -> datetime) (w : world) :
  slots_cache w = None ->
  globals_missing w = true \/ (exists e, r = FindRaises e) ->
  let w1 := snd (get_available_slots r clock w) in
  slots_cache w1 = Some (generate_static_slots clock)
  /\ get_available_slots r' clock' w1 = (Ret (generate_static_slots clock), w1).
Proof.
  intros C H w1.
  assert (E : exists w', get_available_slots_wrapped r clock w
                         = (Ret (generate_static_slots clock), w')).
  { destruct (globals_missing w) eqn:G.
    - rewrite wrapped_no_connection by assumption. eauto.
    - destruct H as [H|[e ->]]; [discriminate H|].
      rewrite wrapped_read_fails by assumption. eauto. }
  destruct E as (w' & E).
  assert (C1 : slots_cache w1 = Some (generate_static_slots clock)).
  { unfold w1. now rewrite (cached_miss r clock w _ w' C E). }
  split; [exact C1|]. now apply cached_hit.
Qed.

Lemma outage_result_is_cached_witness :
  let w := connected_world [one_booking] in
  let clock := fun _ : nat => june_1 in
  let w1 := snd (get_available_slots (FindRaises (PyMongoError "timed out")) clock w) in
  slots_cache w = None
  /\ fst (get_available_slots FindReturns clock w1) = Ret (generate_static_slots clock)
  /\ In "2024-06-01 09:00 AM"%string (generate_static_slots clock).
Proof.
  destruct (outage_result_is_cached (FindRaises (PyMongoError "timed out")) FindReturns
              (fun _ : nat => june_1) (fun _ : nat => june_1)
              (connected_world [one_booking]) eq_refl
              ltac:(right; eexists; reflexivity)) as (_ & E).
  split; [reflexivity|]. split; [now rewrite E|].
  vm_compute. left. reflexivity.
Defined.

(** Once a query has run, asking again returns the same list and changes
    nothing, whatever the store or the clock would now say: the entry
    answers until it is cleared or expires. *)
Theorem cached_query_is_repeated
    (r r' : find_reply) (clock clock' : nat -> datetime) (w : world) :
  let res := get_available_slots r clock w in
  get_available_slots r' clock' (snd res) = res.
Proof.
  cbv zeta.
  destruct (query_frame r clock w) as (slots & w' & E & _ & _ & _ & _ & [[C ->]|(_ & C & _)]);
    rewrite E; cbn [snd]; now apply cached_hit.
Qed.

(** When every generated slot has a confirmed booking, the query returns
    the empty list and warns that no slots were found; nothing is raised. *)
Theorem fully_booked_window (clock : nat -> datetime) (w : world) :
  globals_missing w = false ->
  (forall s, In s (generate_static_slots clock) ->
             In s (confirmed_slots (appointments w))) ->
  get_available_slots_wrapped FindReturns clock w
  = (Ret [], show (StWarning (Text "No available slots found for the next 7 days")) w).
Proof.
  intros G H. rewrite wrapped_read_returns by assumption.
  assert (E : generated_minus_confirmed clock (appointments w) = []).
  { destruct (generated_minus_confirmed clock (appointments w)) as [|s l] eqn:E;
      [reflexivity|].
    assert (Hs : In s (generated_minus_confirmed clock (appointments w)))
      by (rewrite E; now left).
    apply In_generated_minus_confirmed in Hs as [Hg Hn]. exfalso. auto. }
  now rewrite E.
Qed.

Lemma fully_booked_window_witness :
  let w := connected_world full_store in
  globals_missing w = false
  /\ List.length full_store = 42%nat
  /\ fst (get_available_slots_wrapped FindReturns (fun _ : nat => june_1) w) = Ret [].
Proof.
  split; [reflexivity|]. split; [reflexivity|].
  rewrite (fully_booked_window (fun _ : nat => june_1) (connected_world full_store) eq_refl).
  - reflexivity.
  - intros s Hs. unfold confirmed_slots, full_store. cbn [appointments connected_world].
    apply in_map_iff. exists (booking_at s). split; [reflexivity|].
    apply filter_In. split; [|reflexivity]. apply in_map_iff. eauto.
Defined.

Lemma filter_minus_snoc (booked : list string) (x : string) (l : list string) :
  List.filter (fun s => negb (slot_in s (booked ++ [x]))) l
  = List.filter (fun s => negb (String.eqb s x))
                (List.filter (fun s => negb (slot_in s booked)) l).
Proof.
  assert (H : forall s, slot_in s (booked ++ [x]) = slot_in s booked || String.eqb s x).
  { intros s. unfold slot_in. rewrite existsb_app. cbn [existsb]. now rewrite orb_false_r. }
  induction l as [|s l IH]; [reflexivity|].
  cbn [List.filter]. rewrite H.
  destruct (slot_in s booked); cbn [negb orb List.filter]; [exact IH|].
  destruct (String.eqb s x); cbn [negb]; [exact IH | now rewrite IH].
Qed.

Lemma minus_confirmed_snoc
    (clock : nat -> datetime) (store : list appointment) (doc : appointment) :
  generated_minus_confirmed clock (store ++ [doc])
  = if String.eqb (status doc) "confirmed"
    then List.filter (fun s => negb (String.eqb s (appointment_slot doc)))
                     (generated_minus_confirmed clock store)
    else generated_minus_confirmed clock store.
Proof.
  unfold generated_minus_confirmed. rewrite confirmed_slots_app.
  unfold confirmed_slots at 2, is_confirmed. cbn [List.filter].
  destruct (String.eqb (status doc) "confirmed"); cbn [map].
  - apply filter_minus_snoc.
  - now rewrite app_nil_r.
Qed.

(** Only confirmed bookings take slots. With the store connected and
    answering, let [slots] be what the availability query computes; once
    one more document is in the collection, the query computes [slots]
    again when the status of the document is not ['confirmed'], and
    [slots] without the occurrences of the document's slot when it is. *)
Theorem only_confirmed_bookings_take_slots
    (clock : nat -> datetime) (w : world) (doc : appointment) (slots : list string) :
  globals_missing w = false ->
  fst (get_available_slots_wrapped FindReturns clock w) = Ret slots ->
  fst (get_available_slots_wrapped FindReturns clock
         (set_appointments (appointments w ++ [doc]) w))
  = Ret (if String.eqb (status doc) "confirmed"
         then List.filter (fun s => negb (String.eqb s (appointment_slot doc))) slots
         else slots).
Proof.
  intros G E. rewrite wrapped_read_returns in E by assumption. injection E as <-.
  rewrite wrapped_read_returns by exact G. cbn [fst appointments set_appointments].
  now rewrite minus_confirmed_snoc.
Qed.

Lemma only_confirmed_bookings_take_slots_witness :
  let clock := fun _ : nat => june_1 in
  let w := connected_world [] in
  globals_missing w = false
  /\ fst (get_available_slots_wrapped FindReturns clock w)
     = Ret (generate_static_slots clock)
  /\ fst (get_available_slots_wrapped FindReturns clock
            (set_appointments (appointments w ++ [cancelled_booking]) w))
     = Ret (generate_static_slots clock)
  /\ fst (get_available_slots_wrapped FindReturns clock
            (set_appointments (appointments w ++ [one_booking]) w))
     = Ret (List.tl (generate_static_slots clock)).
Proof.
  assert (E : fst (get_available_slots_wrapped FindReturns (fun _ : nat => june_1)
                     (connected_world []))
              = Ret (generate_static_slots (fun _ : nat => june_1)))
    by reflexivity.
  split; [reflexivity|]. split; [exact E|]. split.
  - exact (only_confirmed_bookings_take_slots (fun _ : nat => june_1)
             (connected_world []) cancelled_booking _ eq_refl E).
  - rewrite (only_confirmed_bookings_take_slots (fun _ : nat => june_1)
               (connected_world []) one_booking _ eq_refl E).
    reflexivity.
Defined.

(** After a successful save for a slot of the window, a query whose read
    of the store fails still offers that slot: the fallback list does not
    consult the bookings, and it is then cached. *)
Theorem booked_slot_offered_during_outage
    (env : save_env) (details : gmap string value) (w w' : world)
    (id : string) (v : value) (e : exn) (clock : nat -> datetime) :
  save_appointment_to_db env details w = (Ret (Some id), w') ->
  details !! "slot" = Some v ->
  In (str v) (generate_static_slots clock) ->
  In (str v) (confirmed_slots (appointments w'))
  /\ fst (get_available_slots (FindRaises e) clock w') = Ret (generate_static_slots clock)
  /\ slots_cache (snd (get_available_slots (FindRaises e) clock w'))
     = Some (generate_static_slots clock).
Proof.
  intros E Hv Hin.
  destruct (save_frame env details w) as [(E1 & _)|(doc & Hd & G & _ & E2)].
  { rewrite E in E1. discriminate E1. }
  rewrite E in E2. injection E2 as -> ->.
  destruct (appointment_data_stamped _ _ _ Hd) as (St & _ & _ & Hslot).
  split.
  { cbn [appointments set_slots_cache set_appointments].
    rewrite confirmed_slots_app, (confirmed_slots_stamped doc St), (Hslot v Hv).
    apply in_or_app. right. now left. }
  set (w1 := set_slots_cache None _).
  assert (G1 : globals_missing w1 = false) by exact G.
  rewrite (cached_miss (FindRaises e) clock w1 _ _ eq_refl
             (wrapped_read_fails e clock w1 G1)).
  split; reflexivity.
Qed.

Lemma booked_slot_offered_during_outage_witness :
  let w' := snd (save_appointment_to_db env_1 ann_details (connected_world [])) in
  let clock := fun _ : nat => june_1 in
  exists slots,
    fst (get_available_slots (FindRaises (PyMongoError "timed out")) clock w') = Ret slots
    /\ In "2024-06-01 09:00 AM"%string slots.
Proof.
  assert (E : save_appointment_to_db env_1 ann_details (connected_world [])
              = (Ret (Some (str_uuid 1)),
                 snd (save_appointment_to_db env_1 ann_details (connected_world []))))
    by reflexivity.
  assert (Hin : In (str (VStr "2024-06-01 09:00 AM"))
                   (generate_static_slots (fun _ : nat => june_1)))
    by (vm_compute; left; reflexivity).
  destruct (booked_slot_offered_during_outage env_1 ann_details _ _ _
              (VStr "2024-06-01 09:00 AM") (PyMongoError "timed out")
              (fun _ : nat => june_1) E eq_refl Hin) as (_ & Eq & _).
  eexists. split; [exact Eq | exact Hin].
Defined.

End Slots.

(** ** Further properties of the booking form *)

Module FormFacts.
Import StrFacts Availability Persistence Workflow Frames Runs Submit.

(** A complete draft, a connected store and an acknowledged insert make
    the submission succeed. *)
Lemma handle_success f env r clock w :
  submitting f w ->
  missing_fields f = [] ->
  globals_missing w = false ->
  acknowledged env ->
  fst (handle_appointment_booking f env r clock w) = Ret (Some booked_message).
Proof.
  intros [St Hb] Hm G Hack.
  apply missing_fields_filled in Hm.
  rewrite (handle_collect f env r clock w St), Hb, Hm. cbv zeta.
  rewrite <- (globals_missing_store _ _ (store_of_form_page f w)) in G.
  rewrite save_connected by assumption.
  rewrite appointment_data_form, Hack, truthy_str_uuid.
  match goal with
  | |- context [get_available_slots r clock ?x] =>
      destruct (query_frame r clock x) as (slots & w3 & Eq & _)
  end.
  now rewrite Eq.
Qed.

(** [handle_appointment_booking] never raises: the lookup of the selected
    doctor in the catalog cannot fail, and neither the save nor the
    refresh of the slots lets an exception out. It returns [None], the
    prompt of the idle stage or the confirmation message. *)
Theorem handle_appointment_booking_total
    (f : Form.t) (env : save_env) (r : find_reply) (clock : nat -> datetime)
    (w : world) :
  exists (res : option string) (w' : world),
    handle_appointment_booking f env r clock w = (Ret res, w')
    /\ (res = None
        \/ res = Some "Please provide your details for the appointment booking."
        \/ res = Some booked_message).
Proof.
  destruct (appointment_stage (session w)) as [stage|] eqn:St.
  - destruct (String.eqb_spec stage "collect_info") as [->|Hne].
    + destruct (handle_cases f env r clock w St)
        as [(E & _)|(doc & _ & _ & _ & _ & _ & E & _)];
        destruct (handle_appointment_booking f env r clock w) as [o w'];
        cbn [fst] in E; subst o; eauto 6.
    + rewrite (handle_other_stage f env r clock w stage St Hne). eauto 6.
  - rewrite (handle_idle f env r clock w St). eauto 6.
Qed.

(** A successful submission, with the store answering the refresh, stores
    the very slot string that was selected and the catalog's
    specialization of the selected doctor, replaces the session's slot
    list by the availability computed from the updated store, which no
    longer holds the booked slot, and closes the form. *)
Theorem successful_submission
    (f : Form.t) (env : save_env) (clock : nat -> datetime) (w : world) :
  submitting f w ->
  fst (handle_appointment_booking f env FindReturns clock w) = Ret (Some booked_message) ->
  let w' := snd (handle_appointment_booking f env FindReturns clock w) in
  exists doc,
    appointments w' = appointments w ++ [doc]
    /\ Form.preferred_slot f = Some (appointment_slot doc)
    /\ (exists d, doctors_getitem get_doctors_info (doctor doc) = Ret d
                  /\ doctor_specialization doc = specialization d)
    /\ available_slots (session w') = generated_minus_confirmed clock (appointments w')
    /\ slots_cache w' = Some (available_slots (session w'))
    /\ ~ In (appointment_slot doc) (available_slots (session w'))
    /\ appointment_stage (session w') = None
    /\ active_button (session w') = None.
Proof.
  intros [St Hb] E w'.
  destruct (handle_cases f env FindReturns clock w St)
    as [(E' & _)|(doc & _ & Hall & _ & _ & Hd & _ & _ & _ & Ha & Hc & Hs & Hst & Hab)].
  { rewrite E in E'. discriminate E'. }
  fold w' in Ha, Hc, Hs, Hst, Hab.
  exists doc. split; [exact Ha|].
  rewrite appointment_data_form in Hd. injection Hd as <-.
  cbn [appointment_slot doctor doctor_specialization] in *.
  assert (Hslot : truthy_opt (Form.preferred_slot f) = true
                  /\ truthy_opt (form_doctor f) = true).
  { unfold all_fields_filled in Hall. repeat (apply andb_true_iff in Hall as [Hall ?]).
    auto. }
  destruct Hslot as [Hslot Hdoc].
  split.
  { destruct (Form.preferred_slot f); [reflexivity | discriminate Hslot]. }
  split.
  { destruct (pick_doctor_catalog f) as [N|(k & d & Ek & _ & Hk)];
      [rewrite N in Hdoc; discriminate Hdoc|].
    exists d. unfold form_specialization. rewrite Ek. cbn [value_of_opt str opt_str].
    now rewrite Hk. }
  cbn [computed_slots] in Hc, Hs. rewrite Ha, Hs.
  split; [reflexivity|]. split; [exact Hc|].
  split; [|auto].
  apply not_in_minus_confirmed. rewrite confirmed_slots_app. apply in_or_app. right.
  unfold confirmed_slots, is_confirmed. cbn. now left.
Qed.

Lemma successful_submission_witness :
  let w := form_world [] in
  let w' := snd (handle_appointment_booking ann_form env_1 FindReturns
                   (fun _ : nat => june_1) w) in
  submitting ann_form w
  /\ List.length (available_slots (session w')) = 41%nat
  /\ ~ In "2024-06-01 09:00 AM"%string (available_slots (session w'))
  /\ appointment_stage (session w') = None.
Proof.
  assert (Sub : submitting ann_form (form_world [])) by (split; reflexivity).
  destruct (successful_submission ann_form env_1 (fun _ : nat => june_1)
              (form_world []) Sub eq_refl)
    as (doc & Ha & Hp & _ & _ & _ & Hn & Hst & _).
  split; [exact Sub|]. split; [reflexivity|]. split; [|exact Hst].
  injection Hp as Hp. rewrite Hp. exact Hn.
Defined.

Lemma strip_all_space s : all_space s = true -> strip s = EmptyString.
Proof.
  unfold strip. induction s as [|c s IH]; [reflexivity|]. cbn [all_space lstrip].
  intros H. apply andb_true_iff in H as [Hc Hs]. rewrite Hc. auto.
Qed.

(** The check of the form looks at the strings as typed: a name made of
    white space only counts as filled in, the booking goes through, and
    the name persisted is the empty string. *)
Theorem blank_name_is_accepted
    (f : Form.t) (env : save_env) (r : find_reply) (clock : nat -> datetime)
    (w : world) :
  submitting f w ->
  missing_fields f = [] ->
  all_space (Form.name f) = true ->
  globals_missing w = false ->
  acknowledged env ->
  fst (handle_appointment_booking f env r clock w) = Ret (Some booked_message)
  /\ exists doc,
       appointments (snd (handle_appointment_booking f env r clock w))
       = appointments w ++ [doc]
       /\ name doc = EmptyString.
Proof.
  intros Sub Hm Hsp G Hack.
  pose proof (handle_success f env r clock w Sub Hm G Hack) as E.
  split; [exact E|].
  destruct Sub as [St Hb].
  destruct (handle_cases f env r clock w St)
    as [(E' & _)|(doc & _ & _ & _ & _ & Hd & _ & _ & _ & Ha & _)].
  { rewrite E in E'. discriminate E'. }
  exists doc. split; [exact Ha|].
  rewrite appointment_data_form in Hd. injection Hd as <-.
  cbn [name]. now apply strip_all_space.
Qed.

Lemma blank_name_is_accepted_witness :
  let w := form_world [] in
  let res := handle_appointment_booking blank_name_form env_1 FindReturns
               (fun _ : nat => june_1) w in
  submitting blank_name_form w
  /\ missing_fields blank_name_form = []
  /\ fst res = Ret (Some booked_message)
  /\ map name (appointments (snd res)) = [EmptyString].
Proof.
  assert (Sub : submitting blank_name_form (form_world [])) by (split; reflexivity).
  destruct (blank_name_is_accepted blank_name_form env_1 FindReturns
              (fun _ : nat => june_1) (form_world []) Sub eq_refl eq_refl eq_refl eq_refl)
    as (E & doc & Ha & Hn).
  split; [exact Sub|]. split; [reflexivity|]. split; [exact E|].
  rewrite Ha. cbn [map app appointments form_world connected_world set_session].
  now rewrite Hn.
Defined.

(** With the store connected and the insert acknowledged, the save goes
    through exactly when the argument holds all nine keys and its age is
    an integer or a string that [int] can read. *)
Theorem save_requires_all_fields
    (env : save_env) (details : gmap string value) (w : world) :
  globals_missing w = false ->
  acknowledged env ->
  (exists id, fst (save_appointment_to_db env details w) = Ret (Some id))
  <-> (Forall (fun k => is_Some (details !! k)) required_keys
       /\ exists v n, details !! "age" = Some v /\ int v = Ret n).
Proof.
  intros G Hack. rewrite save_connected by assumption. rewrite Hack.
  unfold appointment_data, getitem, required_keys. split.
  - intros (id & H).
    repeat match type of H with
           | context [details !! ?k] =>
               destruct (details !! k) eqn:?; cbn [bind] in H; [|discriminate H]
           | context [int ?x] => destruct (int x) eqn:?; cbn [bind] in H; [|discriminate H]
           end.
    split; [repeat constructor; eauto | eauto].
  - intros (F & v & n & Hv & Hn).
    repeat match goal with
           | F : Forall _ (_ :: _) |- _ => apply Forall_cons in F as [[? ?] F]
           end.
    rewrite Hv in *.
    repeat match goal with
           | H : details !! _ = Some _ |- _ => rewrite H; clear H
           end.
    cbn [bind]. rewrite Hn. cbn [bind]. eauto.
Qed.

Lemma save_requires_all_fields_witness :
  (exists id, fst (save_appointment_to_db env_1 ann_details (connected_world []))
              = Ret (Some id))
  /\ fst (save_appointment_to_db env_1 (delete "symptoms" ann_details) (connected_world []))
     = Ret None.
Proof.
  pose proof (save_requires_all_fields env_1 ann_details (connected_world [])
                eq_refl eq_refl) as H1.
  pose proof (save_requires_all_fields env_1 (delete "symptoms" ann_details)
                (connected_world []) eq_refl eq_refl) as H2.
  split.
  - apply H1. split; [repeat constructor; eexists; reflexivity|].
    exists (VInt 30), 30. split; reflexivity.
  - destruct (fst (save_appointment_to_db env_1 (delete "symptoms" ann_details)
                     (connected_world []))) as [[id|]|e] eqn:E; try reflexivity.
    + exfalso. destruct (proj1 H2 (ex_intro _ id eq_refl)) as [F _].
      rewrite Forall_forall in F.
      destruct (F "symptoms"%string
                  ltac:(apply list_elem_of_In; unfold required_keys; simpl; tauto))
        as [x Hx].
      vm_compute in Hx. discriminate Hx.
    + vm_compute in E. discriminate E.
Defined.

End FormFacts.

(** ** Booking identifiers *)

Module Identifiers.
Import Persistence Frames.

Lemma hex_char_inj a b :
  0 <= a < 16 -> 0 <= b < 16 -> hex_char a = hex_char b -> a = b.
Proof.
  unfold hex_char. intros Ha Hb E.
  destruct (Z.ltb_spec a 10), (Z.ltb_spec b 10);
    apply (f_equal N_of_ascii) in E;
    rewrite !N_ascii_embedding in E by lia; lia.
Qed.

Lemma hex_fixed_mod k n m :
  hex_fixed k n = hex_fixed k m -> n mod 16 ^ Z.of_nat k = m mod 16 ^ Z.of_nat k.
Proof.
  induction k as [|k IH]; intros E.
  - change (16 ^ Z.of_nat 0) with 1. now rewrite !Z.mod_1_r.
  - cbn [hex_fixed] in E. injection E as Ed Et.
    apply hex_char_inj in Ed; try (apply Z.mod_pos_bound; lia).
    specialize (IH Et).
    rewrite Nat2Z.inj_succ, Z.pow_succ_r by lia.
    rewrite (Z.mul_comm 16).
    assert (0 < 16 ^ Z.of_nat k) by (apply Z.pow_pos_nonneg; lia).
    rewrite !Z.rem_mul_r by lia. now rewrite IH, Ed.
Qed.

Lemma str_uuid_inj u u' :
  0 <= u < 2 ^ 128 -> 0 <= u' < 2 ^ 128 -> str_uuid u = str_uuid u' -> u = u'.
Proof.
  intros Hu Hu' E.
  assert (H : hex_fixed 32 u = hex_fixed 32 u').
  { unfold str_uuid in E. cbv [hex_fixed substring String.append] in E.
    injection E. intros. cbn [hex_fixed]. congruence. }
  apply hex_fixed_mod in H.
  change (16 ^ Z.of_nat 32) with (2 ^ 128) in H.
  now rewrite !Z.mod_small in H by assumption.
Qed.

(** The identifier returned by a successful save is the 36-character
    string of the UUID drawn in that call, and two successful saves return
    the same identifier only if they drew the same 128-bit UUID. *)
Theorem booking_ids_follow_uuids
    (env env' : save_env) (details details' : gmap string value)
    (w w1 w' w1' : world) (id id' : string) :
  0 <= uuid4 env < 2 ^ 128 -> 0 <= uuid4 env' < 2 ^ 128 ->
  save_appointment_to_db env details w = (Ret (Some id), w1) ->
  save_appointment_to_db env' details' w' = (Ret (Some id'), w1') ->
  String.length id = 36%nat
  /\ (id = id' <-> uuid4 env = uuid4 env').
Proof.
  intros Hu Hu' E E'.
  assert (Hid : forall e d x i y, save_appointment_to_db e d x = (Ret (Some i), y) ->
                                  i = str_uuid (uuid4 e)).
  { intros e d x i y H. destruct (save_frame e d x) as [(H1 & _)|(doc & _ & _ & _ & H2)].
    - rewrite H in H1. discriminate H1.
    - rewrite H in H2. now injection H2. }
  rewrite (Hid _ _ _ _ _ E), (Hid _ _ _ _ _ E').
  split; [reflexivity|]. split.
  - now apply str_uuid_inj.
  - now intros ->.
Qed.

Lemma booking_ids_follow_uuids_witness :
  let w := connected_world [] in
  let res1 := save_appointment_to_db env_1 ann_details w in
  let res2 := save_appointment_to_db env_2 ann_details (snd res1) in
  fst res1 = Ret (Some "00000000-0000-0000-0000-000000000001"%string)
  /\ fst res2 = Ret (Some "00000000-0000-0000-0000-000000000002"%string)
  /\ ~ ("00000000-0000-0000-0000-000000000001" = "00000000-0000-0000-0000-000000000002")%string.
Proof.
  split; [reflexivity|]. split; [reflexivity|].
  intros H.
  assert (E1 : save_appointment_to_db env_1 ann_details (connected_world [])
               = (Ret (Some "00000000-0000-0000-0000-000000000001"%string),
                  snd (save_appointment_to_db env_1 ann_details (connected_world []))))
    by reflexivity.
  assert (E2 : save_appointment_to_db env_2 ann_details
                 (snd (save_appointment_to_db env_1 ann_details (connected_world [])))
               = (Ret (Some "00000000-0000-0000-0000-000000000002"%string),
                  snd (save_appointment_to_db env_2 ann_details
                         (snd (save_appointment_to_db env_1 ann_details (connected_world []))))))
    by reflexivity.
  destruct (booking_ids_follow_uuids env_1 env_2 _ _ _ _ _ _ _ _
              ltac:(simpl; lia) ltac:(simpl; lia) E1 E2) as (_ & Hiff).
  apply Hiff in H. discriminate H.
Defined.

End Identifiers.

(** ** Connection, page buttons and chat *)

Module Page.
Import Availability Persistence Workflow Frames Runs Submit.

(** [test_mongodb_connection] never raises and touches neither the
    collection nor the cache. It returns a client and a database when both
    environment variables are set, the client is created and
    [server_info()] answers, and [(None, None)] in every other case, so
    the two globals are always both set or both missing. *)
Theorem test_mongodb_connection_outcome (env : connect_env) (w : world) :
  exists w',
    test_mongodb_connection env w
    = (Ret (if connects env
            then (Some (MongoClient (MONGODB_URI env)),
                  Some (Database (MongoClient (MONGODB_URI env))
                                 (opt_str (MONGODB_DB env))))
            else (None, None)),
       w')
    /\ store_of w' = store_of w.
Proof.
  assert (Fail : forall e,
            exists w', (toast_once (TextExn "Database Connection Failed: " e) ;;
                        ret (None, None)) w
                       = (Ret (@None client, @None database), w')
                       /\ store_of w' = store_of w).
  { intros e. unfold mbind, toast_once, mbind, get.
    destruct (db_connection_shown (session w)); eexists; split; reflexivity. }
  unfold test_mongodb_connection, connects, mtry.
  destruct (truthy_opt (MONGODB_URI env)), (truthy_opt (MONGODB_DB env));
    cbn [negb orb andb].
  2,3,4: (unfold raise at 1; cbv beta iota;
          destruct (Fail (ValueError "MongoDB URI or Database name is missing in .env file"))
            as (w' & -> & S); eauto).
  unfold mbind at 1. unfold get_mongodb_client, mtry.
  destruct (mongo_client_reply env) as [|e]; cbn [ret raise fst snd andb].
  - unfold ret at 1. cbv beta iota.
    destruct (server_info_error env) as [e|].
    + unfold mbind at 1, raise. cbv beta iota.
      destruct (Fail e) as (w' & -> & S). eauto.
    + unfold mbind, ret, toast_once, mbind, get.
      destruct (db_connection_shown (session w)); eexists; split; reflexivity.
  - unfold raise, mbind, st_error, emit, modify, ret. cbv beta iota.
    eexists. split; reflexivity.
Qed.

Lemma count_toasts_app a b : count_toasts (a ++ b) = (count_toasts a + count_toasts b)%nat.
Proof. unfold count_toasts. now rewrite List.filter_app, length_app. Qed.

(** One connection test: no toast once the session has been told, at most
    one otherwise, and then the session is marked as told. *)
Lemma connection_toast env w :
  let w' := snd (init_connection env w) in
  match db_connection_shown (session w) with
  | Some _ =>
      count_toasts (ui w') = count_toasts (ui w)
      /\ db_connection_shown (session w') = db_connection_shown (session w)
  | None =>
      (count_toasts (ui w') = count_toasts (ui w)
       /\ db_connection_shown (session w') = None)
      \/ (count_toasts (ui w') = S (count_toasts (ui w))
          /\ db_connection_shown (session w') = Some true)
  end.
Proof.
  unfold init_connection, test_mongodb_connection, get_mongodb_client, mtry.
  destruct (truthy_opt (MONGODB_URI env)), (truthy_opt (MONGODB_DB env)),
    (mongo_client_reply env) as [|e], (server_info_error env) as [e'|];
    cbn [negb orb];
    unfold mbind, raise, toast_once, mbind, get, st_toast, st_error, emit, modify,
      modify_session, modify, ret;
    destruct (db_connection_shown (session w)) eqn:F; cbn;
    rewrite ?F; unfold count_toasts;
    rewrite ?List.filter_app, ?length_app; cbn [List.filter List.length];
    first [ split; [lia | reflexivity]
          | right; split; [lia | reflexivity]
          | left; split; [lia | reflexivity] ].
Qed.

(** However often the script reconnects in one session, it shows at most
    one connection toast. *)
Theorem connection_toast_shown_once (envs : list connect_env) (w : world) :
  (count_toasts (ui (run (map EvConnect envs) w)) <= S (count_toasts (ui w)))%nat
  /\ (db_connection_shown (session w) <> None ->
      count_toasts (ui (run (map EvConnect envs) w)) = count_toasts (ui w)).
Proof.
  assert (Told : forall envs w, db_connection_shown (session w) <> None ->
            count_toasts (ui (run (map EvConnect envs) w)) = count_toasts (ui w)
            /\ db_connection_shown (session (run (map EvConnect envs) w)) <> None).
  { clear. induction envs as [|env envs IH]; intros w H; [now split|].
    cbn [map run fold_left step]. pose proof (connection_toast env w) as C.
    destruct (db_connection_shown (session w)) eqn:F; [|contradiction].
    destruct C as [C1 C2].
    destruct (IH (snd (init_connection env w))) as [I1 I2]; [rewrite C2; discriminate|].
    unfold run in I1, I2. rewrite I1. split; [exact C1 | exact I2]. }
  split; [|intros H; now apply Told].
  revert w. induction envs as [|env envs IH]; intros w; [cbn; lia|].
  cbn [map run fold_left step]. pose proof (connection_toast env w) as C.
  destruct (db_connection_shown (session w)) eqn:F.
  - destruct C as [C1 C2].
    destruct (Told envs (snd (init_connection env w))) as [I1 _]; [rewrite C2; discriminate|].
    unfold run in I1. rewrite I1. lia.
  - destruct C as [[C1 C2]|[C1 C2]].
    + specialize (IH (snd (init_connection env w))). unfold run in IH. lia.
    + destruct (Told envs (snd (init_connection env w))) as [I1 _];
        [rewrite C2; discriminate|].
      unfold run in I1. rewrite I1. lia.
Qed.

Lemma connection_toast_shown_once_witness :
  let w := run (map EvConnect [env_unreachable; env_ok; env_ok]) fresh_world in
  count_toasts (ui w) = 1%nat
  /\ ui w = [StToast (TextExn "Database Connection Failed: " (PyMongoError "no servers"))]
  /\ globals_missing w = false.
Proof.
  pose proof (connection_toast_shown_once [env_unreachable; env_ok; env_ok] fresh_world)
    as [H _].
  split; [|split; reflexivity].
  apply Nat.le_antisymm; [exact H|]. vm_compute. lia.
Defined.

(** Pressing the "Book Appointment" button of the page toggles the form:
    from any other state it activates the button and opens the form stage,
    from the active state it deactivates the button and resets the stage;
    the stored bookings and the cache are not touched. Two presses in a
    row from the active state lead back to the open form. *)
Theorem book_button_toggles (w : world) :
  let w1 := snd (book_button_clicked w) in
  store_of w1 = store_of w
  /\ (if opt_eqb (active_button (session w)) "book"
      then active_button (session w1) = None
           /\ appointment_stage (session w1) = None
      else active_button (session w1) = Some "book"
           /\ appointment_stage (session w1) = Some "collect_info")
  /\ active_button (session (snd (book_button_clicked w1)))
     = (if opt_eqb (active_button (session w)) "book" then Some "book" else None).
Proof.
  unfold book_button_clicked, mbind, get, modify_session, modify.
  destruct (opt_eqb (active_button (session w)) "book") eqn:E; cbn; auto.
Qed.

Lemma slots_button_spec w :
  slots_button_clicked w
  = (Ret tt,
     if opt_eqb (active_button (session w)) "slots"
     then set_session (set_active_button None (session w)) w
     else
       let w1 := set_session (set_active_button (Some "slots") (session w)) w in
       match available_slots (session w) with
       | [] => show (StWarning (Text "No available slots found")) w1
       | l => set_ui (ui w1 ++ SlotsHeader :: map SlotLine (firstn 5 l) ++ [SlotsFooter]) w1
       end).
Proof.
  unfold slots_button_clicked, mbind, get, modify_session, modify.
  destruct (opt_eqb (active_button (session w)) "slots") eqn:E; cbv beta iota.
  - cbn [session set_session active_button set_active_button opt_eqb]. reflexivity.
  - cbn [session set_session active_button set_active_button opt_eqb].
    change (String.eqb "slots" "slots") with true. cbv iota zeta.
    cbn [available_slots set_active_button].
    destruct (available_slots (session w)) as [|s l]; [reflexivity|].
    change (firstn 5 (s :: l)) with (s :: firstn 4 l). cbv iota beta.
    unfold emit at 1, modify. cbv beta iota. rewrite show_slots_spec.
    unfold emit, modify. cbn [ui set_ui]. f_equal.
    unfold set_ui. cbn. now rewrite <- !app_assoc.
Qed.

(** Pressing "View Available Slots" while it is inactive lists the first
    five slots of the session's list, in order, between a header and a
    footer, or warns when the list is empty; pressing it while active only
    deactivates it. The session's list and the shared state stay as they
    are. *)
Theorem slots_button_shows_first_five (w : world) :
  let w' := snd (slots_button_clicked w) in
  store_of w' = store_of w
  /\ available_slots (session w') = available_slots (session w)
  /\ shown w w'
     = (if opt_eqb (active_button (session w)) "slots" then []
        else match available_slots (session w) with
             | [] => [StWarning (Text "No available slots found")]
             | l => SlotsHeader :: map SlotLine (firstn 5 l) ++ [SlotsFooter]
             end)
  /\ active_button (session w')
     = (if opt_eqb (active_button (session w)) "slots" then None else Some "slots").
Proof.
  cbv zeta. rewrite slots_button_spec. cbn [snd].
  destruct (opt_eqb (active_button (session w)) "slots").
  - split; [reflexivity|]. split; [reflexivity|]. split; [|reflexivity].
    apply shown_app. cbn. now rewrite app_nil_r.
  - cbv zeta. destruct (available_slots (session w)) as [|s l] eqn:L.
    + split; [reflexivity|]. split; [cbn; exact L|]. split; [|reflexivity].
      apply shown_app. reflexivity.
    + split; [reflexivity|]. split; [cbn; exact L|]. split; [|reflexivity].
      apply shown_app. reflexivity.
Qed.

Lemma gemini_never_raises r question :
  get_gemini_response r question
  = Ret (if booking_keyword question then canned_reply
         else match r with
              | GeminiReturns t => t
              | GeminiRaises _ => apology
              end).
Proof.
  unfold get_gemini_response. destruct (booking_keyword question); [reflexivity|].
  destruct r; reflexivity.
Qed.

(** A chat message that is sent, not empty and not already being processed
    adds exactly two entries to the history, the message and one reply: the
    fixed booking reply when the message contains "appointment" or "book"
    in any letter case (the assistant is then not consulted and the form
    stage opens), otherwise the assistant's text, or the apology when the
    assistant fails. The page shows no error, the processing flag is down
    again, and bookings and cache are untouched. *)
Theorem chat_message_is_answered
    (user_input : string) (r : gemini_reply) (w : world) :
  truthy_str user_input = true ->
  processing (session w) = false ->
  let w' := snd (chat_submit true user_input r w) in
  chat_history (session w')
  = chat_history (session w)
    ++ [("user"%string, user_input);
        ("bot"%string,
         if booking_keyword user_input then canned_reply
         else match r with
              | GeminiReturns t => t
              | GeminiRaises _ => apology
              end)]
  /\ appointment_stage (session w')
     = (if booking_keyword user_input then Some "collect_info"
        else appointment_stage (session w))
  /\ active_button (session w') = active_button (session w)
  /\ processing (session w') = false
  /\ ui w' = ui w
  /\ store_of w' = store_of w.
Proof.
  intros Hin Hp. cbv zeta. unfold chat_submit, mbind, get.
  rewrite Hin, Hp. cbn [andb negb].
  unfold modify_session, modify, chat_append, modify_session, modify. cbv beta iota.
  destruct (booking_keyword user_input) eqn:K; cbv beta iota.
  - cbn. rewrite <- app_assoc. repeat split; reflexivity.
  - unfold mtry, mbind, lift. rewrite gemini_never_raises, K.
    cbn. rewrite <- app_assoc. repeat split; reflexivity.
Qed.

Lemma chat_message_is_answered_witness :
  let w := connected_world [] in
  let w' := snd (chat_submit true "Can I BOOK a visit?"
                   (GeminiRaises (ValueError "quota")) w) in
  truthy_str "Can I BOOK a visit?" = true
  /\ processing (session w) = false
  /\ chat_history (session w')
     = [("user", "Can I BOOK a visit?"); ("bot", canned_reply)]%string
  /\ appointment_stage (session w') = Some "collect_info"%string.
Proof.
  destruct (chat_message_is_answered "Can I BOOK a visit?"
              (GeminiRaises (ValueError "quota")) (connected_world []) eq_refl eq_refl)
    as (H & St & _).
  split; [reflexivity|]. split; [reflexivity|]. split; [exact H | exact St].
Defined.

(** A booking request typed in the chat opens the form stage but does not
    activate the booking button, and the booking section of the page runs
    only for an active button: unless the button was already active, the
    section draws nothing and changes nothing after such a message. *)
Theorem chat_request_does_not_open_form
    (user_input : string) (g : gemini_reply) (w : world)
    (f : Form.t) (env : save_env) (r : find_reply) (clock : nat -> datetime) :
  truthy_str user_input = true ->
  processing (session w) = false ->
  booking_keyword user_input = true ->
  opt_eqb (active_button (session w)) "book" = false ->
  let w1 := snd (chat_submit true user_input g w) in
  appointment_stage (session w1) = Some "collect_info"
  /\ booking_section f env r clock w1 = (Ret tt, w1).
Proof.
  intros Hin Hp K Hb. cbv zeta. unfold chat_submit, mbind, get.
  rewrite Hin, Hp, K. cbn [andb negb].
  unfold modify_session, modify, chat_append, modify_session, modify. cbv beta iota.
  cbn [fst snd]. split; [reflexivity|].
  unfold booking_section, mbind, get.
  cbn [session set_session appointment_stage set_appointment_stage set_processing
         set_chat_history active_button].
  now rewrite Hb.
Qed.

Lemma chat_request_does_not_open_form_witness :
  let w := connected_world [] in
  let w1 := snd (chat_submit true "book me in" (GeminiReturns "ok") w) in
  booking_keyword "book me in" = true
  /\ opt_eqb (active_button (session w)) "book" = false
  /\ appointment_stage (session w1) = Some "collect_info"%string
  /\ shown w1 (snd (booking_section ann_form env_1 FindReturns (fun _ : nat => june_1) w1))
     = [].
Proof.
  destruct (chat_request_does_not_open_form "book me in" (GeminiReturns "ok")
              (connected_world []) ann_form env_1 FindReturns (fun _ : nat => june_1)
              eq_refl eq_refl eq_refl eq_refl) as (St & E).
  split; [reflexivity|]. split; [reflexivity|]. split; [exact St|].
  cbv zeta. rewrite E. reflexivity.
Defined.

End Page.
